(** * Voice I/O pipeline of roboai: a shallow embedding and its properties

    The development follows three Python modules of the repository:
    - [inputs/plugins/local_asr.py]  (class [LocalASRInput]): the capture
      loop, the speech gate, the transcription dispatcher and the message
      aggregator;
    - [actions/speak/connector/local_elevenlabs_tts.py]
      (class [LocalElevenLabsTTSConnector]): the synthesis chain
      ElevenLabs -> Piper and its playback;
    - [actions/speak/connector/piper_tts.py] (class [PiperTTSConnector]):
      the offline connector.

    Python objects are records, methods are computations in a state and
    exception monad over a world made of the object, the file system and
    the trace of externally visible effects.  Whatever the operating
    system, the network or an external library decides (the outcome of a
    subprocess, an HTTP reply, the samples of the microphone) is an
    explicit argument of the method, so that every path of the code can be
    run on a concrete input. *)

From Stdlib Require Import ZArith List String Ascii Strings.Byte Bool Lia.
From Stdlib Require Import Floats.SpecFloat.
From stdpp Require Import base gmap strings list pretty.

Import ListNotations.
Local Open Scope string_scope.
Local Open Scope list_scope.

(** ** Python values shared by the three modules *)

Module Py.

(** The classes of [Exception] the code names or can meet.  Signals that
    derive from [BaseException] only (keyboard interrupt, task
    cancellation) are process control and are not part of the model:
    an [except Exception] clause catches every [exn]. *)
Inductive exn : Type :=
| ValueError
| IndexError
| RuntimeError
| MemoryError
| UnicodeDecodeError
| OSError
| FileNotFoundError      (* subclass of OSError *)
| PermissionError        (* subclass of OSError *)
| SubprocessError
| TimeoutExpired         (* subclass of SubprocessError *)
| ClientError            (* aiohttp *)
| PortAudioError         (* sounddevice *)
| LibsndfileError.       (* soundfile *)

Definition exn_str (e : exn) : string :=
  match e with
  | ValueError => "ValueError"
  | IndexError => "IndexError"
  | RuntimeError => "RuntimeError"
  | MemoryError => "MemoryError"
  | UnicodeDecodeError => "UnicodeDecodeError"
  | OSError => "OSError"
  | FileNotFoundError => "FileNotFoundError"
  | PermissionError => "PermissionError"
  | SubprocessError => "SubprocessError"
  | TimeoutExpired => "TimeoutExpired"
  | ClientError => "ClientError"
  | PortAudioError => "PortAudioError"
  | LibsndfileError => "LibsndfileError"
  end.

(** [isinstance e cls] for the classes that appear in [except] clauses. *)
Definition is_Exception (_ : exn) : bool := true.

Definition is_OSError (e : exn) : bool :=
  match e with
  | OSError | FileNotFoundError | PermissionError => true
  | _ => false
  end.

Definition is_FileNotFoundError (e : exn) : bool :=
  match e with FileNotFoundError => true | _ => false end.

Definition is_TimeoutExpired (e : exn) : bool :=
  match e with TimeoutExpired => true | _ => false end.

Definition is_SubprocessError (e : exn) : bool :=
  match e with SubprocessError | TimeoutExpired => true | _ => false end.

(** [bytes] objects. *)
Definition bytes : Type := list byte.

(** Truth value of a [str], of a [bytes] and of an [Optional]. *)
Definition str_truthy (s : string) : bool :=
  match s with EmptyString => false | String _ _ => true end.

Definition bytes_truthy (b : bytes) : bool :=
  match b with [] => false | _ :: _ => true end.

Definition opt_truthy {A} (truthy : A -> bool) (o : option A) : bool :=
  match o with None => false | Some a => truthy a end.

(** [str.isspace] on one character.  A [string] stands for a Python
    [str] whose code points are below 256; in that range the white space
    characters are U+0009..U+000D, U+001C..U+0020, U+0085 and U+00A0. *)
Definition is_space (c : ascii) : bool :=
  let n := nat_of_ascii c in
  (((9 <=? n) && (n <=? 13)) || ((28 <=? n) && (n <=? 32))
   || (n =? 133) || (n =? 160))%nat.

Fixpoint lstrip (s : string) : string :=
  match s with
  | EmptyString => EmptyString
  | String c s' => if is_space c then lstrip s' else s
  end.

Fixpoint rstrip (s : string) : string :=
  match s with
  | EmptyString => EmptyString
  | String c s' =>
      match rstrip s' with
      | EmptyString => if is_space c then EmptyString else String c EmptyString
      | r => String c r
      end
  end.

(** [s.strip()] *)
Definition strip (s : string) : string := rstrip (lstrip s).

(** [sep.join(l)] *)
Definition join (sep : string) (l : list string) : string :=
  String.concat sep l.

(** A string made of white space only (the empty string included). *)
Fixpoint all_space (s : string) : bool :=
  match s with
  | EmptyString => true
  | String c s' => is_space c && all_space s'
  end.

End Py.

(** ** The world: object, file system, trace *)

Module World.
Import Py.

(** Temporary files are named by fresh numbers. *)
Definition path : Type := nat.

Definition path_str (p : path) (suffix : string) : string :=
  "/tmp/tmp" +:+ pretty p +:+ suffix.

Inductive level : Type := INFO | WARNING | ERROR.

(** Calls that leave the process.  An event records that the call was
    made, whatever its outcome. *)
Inductive event : Type :=
| Log (lv : level) (msg : string)
| Sleep (ms : Z)                                   (* asyncio.sleep *)
| HttpPost (url : string) (text : string)          (* session.post *)
| Exec (cmd : list string) (stdin : option string)  (* a subprocess call *)
| Playback (audio : bytes).                        (* sf.read; sd.play *)

Record world (Obj : Type) : Type := mkWorld {
  self : Obj;
  fs : gmap path bytes;
  trace : list event
}.
Arguments mkWorld {Obj} _ _ _.
Arguments self {Obj} _.
Arguments fs {Obj} _.
Arguments trace {Obj} _.

Inductive result (A : Type) : Type :=
| Ret (a : A)
| Raise (e : exn).
Arguments Ret {A} _.
Arguments Raise {A} _.

(** A method of an object of class [Obj]: it reads and updates the world
    and returns or raises.  Effects performed before an exception stay
    performed. *)
Definition py (Obj A : Type) : Type := world Obj -> result A * world Obj.

Section Monad.
Context {Obj : Type}.

Definition ret {A} (a : A) : py Obj A := fun w => (Ret a, w).

Definition raise {A} (e : exn) : py Obj A := fun w => (Raise e, w).

Definition bind {A B} (c : py Obj A) (k : A -> py Obj B) : py Obj B :=
  fun w =>
    match c w with
    | (Ret a, w') => k a w'
    | (Raise e, w') => (Raise e, w')
    end.

(** [try: body  except <classes> as e: handler e] *)
Definition try_except {A} (body : py Obj A) (classes : exn -> bool)
           (handler : exn -> py Obj A) : py Obj A :=
  fun w =>
    match body w with
    | (Ret a, w') => (Ret a, w')
    | (Raise e, w') => if classes e then handler e w' else (Raise e, w')
    end.

(** The outcome of a call into the outside world, decided by the
    environment. *)
Definition outcome {A} (r : result A) : py Obj A := fun w => (r, w).

Definition get_self : py Obj Obj := fun w => (Ret (self w), w).

Definition set_self (o : Obj) : py Obj unit :=
  fun w => (Ret tt, mkWorld o (fs w) (trace w)).

Definition emit (ev : event) : py Obj unit :=
  fun w => (Ret tt, mkWorld (self w) (fs w) (trace w ++ [ev])).

Definition logging (lv : level) (msg : string) : py Obj unit :=
  emit (Log lv msg).

(** [tempfile.NamedTemporaryFile(delete=False)] followed by the writes
    of its [with] block: a file that did not exist is created and
    stays after the block. *)
Definition NamedTemporaryFile (content : bytes) : py Obj path :=
  fun w =>
    let p := fresh (dom (fs w)) in
    (Ret p, mkWorld (self w) (<[p := content]> (fs w)) (trace w)).

(** [os.unlink] *)
Definition unlink (p : path) : py Obj unit :=
  fun w =>
    match fs w !! p with
    | Some _ => (Ret tt, mkWorld (self w) (delete p (fs w)) (trace w))
    | None => (Raise FileNotFoundError, w)
    end.

(** [os.path.exists] *)
Definition exists_ (p : path) : py Obj bool :=
  fun w => (Ret (bool_decide (is_Some (fs w !! p))), w).

(** [open(p, 'rb').read()] *)
Definition read_file (p : path) : py Obj bytes :=
  fun w =>
    match fs w !! p with
    | Some b => (Ret b, w)
    | None => (Raise FileNotFoundError, w)
    end.

(** What a subprocess wrote to the file it was told to write. *)
Definition write_file (p : path) (content : option bytes) : py Obj unit :=
  fun w =>
    match content with
    | Some b => (Ret tt, mkWorld (self w) (<[p := b]> (fs w)) (trace w))
    | None => (Ret tt, w)
    end.
End Monad.

(** The outcome of a subprocess: it could not be run to its end (the
    executable is missing, the time allowed is over), or it exited with a
    return code, having written [written] to the file it was asked to
    write ([None]: it left the file alone) and [stderr] to its standard
    error ([Raise]: bytes that do not decode). *)
Inductive process_outcome : Type :=
| NotCompleted (e : exn)
| Exited (returncode : Z) (written : option bytes) (stderr : result string).

(** The subprocess ran to its end and its standard error was decoded. *)
Definition completed (o : process_outcome) : bool :=
  match o with
  | Exited _ _ (Ret _) => true
  | _ => false
  end.

(** What the output file holds once the subprocess is over; the file is
    created empty before the subprocess starts. *)
Definition written_content (o : process_outcome) : bytes :=
  match o with
  | Exited _ (Some b) _ => b
  | _ => []
  end.

(** Kinds of events, and how many events of a kind a trace holds. *)
Definition is_log (ev : event) : bool :=
  match ev with Log _ _ => true | _ => false end.

Definition is_http_post (ev : event) : bool :=
  match ev with HttpPost _ _ => true | _ => false end.

(** A synthesis subprocess is the one that is fed the text. *)
Definition is_piper_synthesis (ev : event) : bool :=
  match ev with Exec _ (Some _) => true | _ => false end.

Definition is_playback (ev : event) : bool :=
  match ev with Playback _ => true | _ => false end.

Definition count (p : event -> bool) (evs : list event) : nat :=
  length (filter (fun ev => p ev = true) evs).

Definition all_logs (evs : list event) : Prop := forallb is_log evs = true.

(** The delays that a trace holds, in milliseconds. *)
Definition delays (evs : list event) : list Z :=
  omap (fun ev => match ev with Sleep ms => Some ms | _ => None end) evs.

End World.

Declare Scope py_scope.
Delimit Scope py_scope with py.
Notation "x <- c ;; k" := (World.bind c (fun x => k))
  (at level 100, c at next level, right associativity) : py_scope.
Notation "c ;;; k" := (World.bind c (fun _ => k))
  (at level 100, right associativity) : py_scope.
Local Open Scope py_scope.

(** ** NumPy's arithmetic on the audio chunks *)

Module Float32.
Import Py World.

(** [np.float32], the type of the samples: IEEE 754 binary32. *)
Definition prec : Z := 24.
Definition emax : Z := 128.
Definition f32 : Type := spec_float.

(** A Python float and [np.float64]: IEEE 754 binary64. *)
Definition prec64 : Z := 53.
Definition emax64 : Z := 1024.
Definition f64 : Type := spec_float.

Definition add : f32 -> f32 -> f32 := SFadd prec emax.
Definition mul : f32 -> f32 -> f32 := SFmul prec emax.
Definition sqrt : f32 -> f32 := SFsqrt prec emax.
Definition div64 : f64 -> f64 -> f64 := SFdiv prec64 emax64.

(** [x > y], [x < y] and [x == y] on two numbers of one format; all
    three are false on a NaN. *)
Definition gt (x y : spec_float) : bool := SFltb y x.
Definition lt (x y : spec_float) : bool := SFltb x y.
Definition eq (x y : spec_float) : bool := SFeqb x y.

(** The conversion to the format of precision [p] and largest exponent
    [em]: the nearest number of the format, ties to even. *)
Definition convert (p em : Z) (x : spec_float) : spec_float :=
  match x with
  | S754_finite s m e => binary_round p em s m e
  | _ => x
  end.

(** binary32 to binary64, which is exact, and binary64 to binary32, which
    rounds. *)
Definition to_f64 (x : f32) : f64 := convert prec64 emax64 x.
Definition to_f32 (x : f64) : f32 := convert prec emax x.

(** The binary64 number of an integer (the number of samples, an
    [np.intp]). *)
Definition of_intp (n : Z) : f64 := binary_normalize prec64 emax64 n 0 false.

(** The number whose encoding is the word [w], in a format with [mbits]
    bits of mantissa and [ebits] bits of exponent. *)
Definition decode (mbits ebits : Z) (w : Z) : spec_float :=
  let s := Z.testbit w (mbits + ebits) in
  let e := Z.land (Z.shiftr w mbits) (Z.ones ebits) in
  let m := Z.land w (Z.ones mbits) in
  let bias := (Z.shiftl 1 (ebits - 1) - 1 + mbits)%Z in
  if (e =? 0)%Z then
    match m with
    | Zpos p => S754_finite s p (1 - bias)
    | _ => S754_zero s
    end
  else if (e =? Z.ones ebits)%Z then
    if (m =? 0)%Z then S754_infinity s else S754_nan
  else
    match Z.lor m (Z.shiftl 1 mbits) with
    | Zpos p => S754_finite s p (e - bias)
    | _ => S754_nan
    end.

(** The binary32 number of a 32-bit word and the binary64 number of a
    64-bit word. *)
Definition of_bits (w : Z) : f32 := decode 23 8 w.
Definition of_bits64 (w : Z) : f64 := decode 52 11 w.

Definition byte_Z (b : byte) : Z := Z.of_N (Byte.to_N b).

(** Four bytes, least significant first, make one sample. *)
Fixpoint words (b : bytes) : list Z :=
  match b with
  | b0 :: b1 :: b2 :: b3 :: rest =>
      Z.lor (byte_Z b0)
        (Z.lor (Z.shiftl (byte_Z b1) 8)
           (Z.lor (Z.shiftl (byte_Z b2) 16) (Z.shiftl (byte_Z b3) 24)))
      :: words rest
  | _ => []
  end.

(** [np.frombuffer(audio_data, dtype=np.float32)]: a [ValueError] when the
    size of the buffer is not a multiple of the size of a sample. *)
Definition frombuffer (audio_data : bytes) : result (list f32) :=
  if (length audio_data mod 4 =? 0)%nat
  then Ret (map of_bits (words audio_data))
  else Raise ValueError.

(** [a**2]: the power 2 of an array is its square, each sample
    multiplied by itself in binary32. *)
Definition square (a : list f32) : list f32 := map (fun x => mul x x) a.

(** The sum of an array of binary32 numbers along its one axis, as
    [np.add.reduce] takes it: NumPy's pairwise summation, all in
    binary32.  Fewer than 8 numbers are added from left to right. *)
Definition sum_left (start : f32) (a : list f32) : f32 :=
  fold_left add a start.

(** Up to 128 numbers are added into 8 accumulators, [r[j] += a[i + j]]
    for each whole block of 8 after the first; the accumulators are added
    as a tree, and the numbers after the last whole block are added to the
    result from left to right. *)
Fixpoint add_blocks (blocks : nat) (r a : list f32) : list f32 :=
  match blocks with
  | O => r
  | S k => add_blocks k (zip_with add r (take 8 a)) (drop 8 a)
  end.

Definition add_tree (r : list f32) : f32 :=
  match r with
  | [r0; r1; r2; r3; r4; r5; r6; r7] =>
      add (add (add r0 r1) (add r2 r3)) (add (add r4 r5) (add r6 r7))
  | _ => S754_nan
  end.

Definition sum_block (a : list f32) : f32 :=
  let n := length a in
  let whole := (n - n mod 8)%nat in
  let r := add_blocks (whole / 8 - 1) (take 8 a) (drop 8 a) in
  sum_left (add_tree r) (drop whole a).

(** More than 128 numbers are split in two, the first part being the
    half of them brought down to a multiple of 8, and the sums of the
    parts are added.  [fuel] bounds the depth of the splitting; the length
    of the array is enough. *)
Fixpoint pairwise_sum (fuel : nat) (a : list f32) : f32 :=
  let n := length a in
  if (n <? 8)%nat then sum_left (S754_zero false) a
  else if (n <=? 128)%nat then sum_block a
  else
    match fuel with
    | O => S754_nan
    | S k =>
        let n2 := (n / 2 - (n / 2) mod 8)%nat in
        add (pairwise_sum k (take n2 a)) (pairwise_sum k (drop n2 a))
    end.

(** The reduction starts from the identity of the addition.  The sign
    of a zero sum is all that the sign of this zero decides, and no
    comparison sees it. *)
Definition sum (a : list f32) : f32 :=
  add (S754_zero false) (pairwise_sum (length a) a).

(** [np.mean] of a binary32 array: the sum, a [np.float32], is divided by
    the number of samples, a [np.intp]; the division is made in binary64
    and its result is converted to binary32.  The mean of no sample at all
    is 0/0, a NaN. *)
Definition mean (a : list f32) : f32 :=
  to_f32 (div64 (to_f64 (sum a)) (of_intp (Z.of_nat (length a)))).

(** [np.sqrt(np.mean(a**2))], a [np.float32]. *)
Definition rms (a : list f32) : f32 := sqrt (mean (square a)).

(** How the installed NumPy compares a [np.float32] with a Python float.
    NumPy 1 converts both to binary64; NumPy 2 converts the Python float
    to binary32. *)
Inductive promotion : Type := NumPy1 | NumPy2.

(** The two numbers that [x > t] compares, for a [np.float32] [x] and a
    Python float [t]. *)
Definition compared (p : promotion) (x : f32) (t : f64)
  : spec_float * spec_float :=
  match p with
  | NumPy1 => (to_f64 x, t)
  | NumPy2 => (x, to_f32 t)
  end.

(** [x > t] *)
Definition greater (p : promotion) (x : f32) (t : f64) : bool :=
  gt (fst (compared p x t)) (snd (compared p x t)).

End Float32.

(** ** [inputs/plugins/local_asr.py] *)

Module LocalASR.
Import Py World Float32.

Definition nl : string := String (ascii_of_nat 10) EmptyString.

(** The attributes of a [LocalASRInput] that the methods below read or
    write.  [silence_threshold] is a Python float.  [openai_client] and
    [faster_whisper_model] record whether the attribute is an object or
    [None]; [skip_sleep] is the flag of the sleep ticker provider. *)
Record LocalASRInput : Type := mkASR {
  messages : list string;
  descriptor_for_LLM : string;
  io_inputs : list (string * string * Z);
  io_mode_transitions : list string;
  message_buffer : list string;
  engine : string;
  silence_threshold : f64;
  openai_client : bool;
  faster_whisper_model : bool;
  skip_sleep : bool
}.

Definition set_messages (m : list string) (o : LocalASRInput) :=
  mkASR m (descriptor_for_LLM o) (io_inputs o) (io_mode_transitions o)
        (message_buffer o) (engine o) (silence_threshold o)
        (openai_client o) (faster_whisper_model o) (skip_sleep o).

Definition set_message_buffer (q : list string) (o : LocalASRInput) :=
  mkASR (messages o) (descriptor_for_LLM o) (io_inputs o)
        (io_mode_transitions o) q (engine o) (silence_threshold o)
        (openai_client o) (faster_whisper_model o) (skip_sleep o).

Definition set_skip_sleep (b : bool) (o : LocalASRInput) :=
  mkASR (messages o) (descriptor_for_LLM o) (io_inputs o)
        (io_mode_transitions o) (message_buffer o) (engine o)
        (silence_threshold o) (openai_client o) (faster_whisper_model o) b.

Definition set_io (i : list (string * string * Z)) (t : list string)
           (o : LocalASRInput) :=
  mkASR (messages o) (descriptor_for_LLM o) i t (message_buffer o)
        (engine o) (silence_threshold o) (openai_client o)
        (faster_whisper_model o) (skip_sleep o).

Definition asr (A : Type) : Type := py LocalASRInput A.

Definition update (f : LocalASRInput -> LocalASRInput) : asr unit :=
  o <- get_self ;; set_self (f o).

(** The configuration object: an attribute that is absent is [None]
    and [getattr] falls back on its default. *)
Record SensorConfig : Type := mkConfig {
  cfg_engine : option string;
  cfg_silence_threshold : option f64
}.

Definition getattr {A} (o : option A) (default : A) : A :=
  match o with Some a => a | None => default end.

(** The Python float [0.01]. *)
Definition default_silence_threshold : f64 := of_bits64 0x3f847ae147ae147b.

(** [__init__]: [api_key] is [os.getenv("OPENAI_API_KEY")] and
    [whisper_importable] tells whether [from faster_whisper import
    WhisperModel] succeeds.  The capture loop is started as a task of its
    own and is run by [_audio_processing_loop] below. *)
Definition __init__ (config : SensorConfig) (api_key : option string)
           (whisper_importable : bool) : LocalASRInput :=
  let engine0 := getattr (cfg_engine config) "openai-whisper" in
  let client :=
    String.eqb engine0 "openai-whisper" && opt_truthy str_truthy api_key in
  let local := String.eqb engine0 "faster-whisper" in
  mkASR [] "Voice" [] [] []
        (if local && negb whisper_importable then "openai-whisper" else engine0)
        (getattr (cfg_silence_threshold config) default_silence_threshold)
        client (local && whisper_importable) false.

(** What [sf.write] does to the file it is given: it writes the WAV
    encoding of the samples, or it raises, having written [partial]
    (nothing, when it could not open the file). *)
Inductive write_outcome : Type :=
| Written (wav : bytes)
| WriteFailed (e : exn) (partial : bytes).

(** What the outside world does during one cycle of the capture loop. *)
Record cycle_env : Type := mkCycle {
  (** the NumPy that [import numpy] finds, which decides how a
      [np.float32] is compared with a Python float *)
  numpy : promotion;
  (** [sd.rec; sd.wait; tobytes]: the recorded bytes, or an exception of
      the audio device *)
  device : result bytes;
  (** [sf.write] on the temporary file *)
  sf_write : write_outcome;
  (** the text returned by the hosted transcription for the uploaded
      file, or an exception *)
  openai_reply : result string;
  (** the texts of the segments of the local engine, or an exception *)
  whisper_reply : result (list string);
  (** an exception raised by [Queue.put], if any *)
  put_failure : option exn
}.

Definition _record_audio_chunk (env : cycle_env) : asr (option bytes) :=
  try_except
    (audio_data <- outcome (device env) ;;
     ret (Some audio_data))
    is_Exception
    (fun e =>
       logging ERROR ("Error recording audio: " +:+ exn_str e) ;;;
       ret None).

Definition _has_speech (audio_data : bytes) (env : cycle_env) : asr bool :=
  try_except
    (audio_array <- outcome (frombuffer audio_data) ;;
     let rms := rms audio_array in
     o <- get_self ;;
     ret (greater (numpy env) rms (silence_threshold o)))
    is_Exception
    (fun e =>
       logging ERROR ("Error checking speech in audio: " +:+ exn_str e) ;;;
       ret false).

(** The temporary file is made with [delete=False]: it outlives its
    [with] block and is removed by [os.unlink] alone, which is reached
    when every step before it has returned. *)
Definition _transcribe_with_openai (audio_data : bytes) (env : cycle_env)
  : asr (option string) :=
  try_except
    (temp_file <- NamedTemporaryFile [] ;;
     audio_array <- outcome (frombuffer audio_data) ;;
     match sf_write env with
     | Written wav => write_file temp_file (Some wav)
     | WriteFailed e partial =>
         write_file temp_file (Some partial) ;;; raise e
     end ;;;
     audio_file <- read_file temp_file ;;
     transcript <- outcome (openai_reply env) ;;
     unlink temp_file ;;;
     ret (if str_truthy transcript then Some (strip transcript) else None))
    is_Exception
    (fun e =>
       logging ERROR ("Error with OpenAI Whisper: " +:+ exn_str e) ;;;
       ret None).

Definition _transcribe_with_faster_whisper (audio_data : bytes)
           (env : cycle_env) : asr (option string) :=
  try_except
    (audio_array <- outcome (frombuffer audio_data) ;;
     segments <- outcome (whisper_reply env) ;;
     let text := join " " segments in
     ret (if str_truthy text then Some (strip text) else None))
    is_Exception
    (fun e =>
       logging ERROR ("Error with Faster-Whisper: " +:+ exn_str e) ;;;
       ret None).

Definition _transcribe_audio (audio_data : bytes) (env : cycle_env)
  : asr (option string) :=
  try_except
    (o <- get_self ;;
     if String.eqb (engine o) "openai-whisper" && openai_client o then
       _transcribe_with_openai audio_data env
     else if String.eqb (engine o) "faster-whisper"
             && faster_whisper_model o then
       _transcribe_with_faster_whisper audio_data env
     else
       logging ERROR ("No valid ASR engine configured: " +:+ engine o) ;;;
       ret None)
    is_Exception
    (fun e =>
       logging ERROR ("Error transcribing audio: " +:+ exn_str e) ;;;
       ret None).

(** [self.message_buffer.put(x)] *)
Definition put (x : string) (env : cycle_env) : asr unit :=
  match put_failure env with
  | Some e => raise e
  | None => update (fun o => set_message_buffer (message_buffer o ++ [x]) o)
  end.

(** [asyncio.sleep], in milliseconds. *)
Definition sleep (ms : Z) : asr unit := emit (Sleep ms).

(** The body of the [try] of one cycle. *)
Definition cycle_body (env : cycle_env) : asr unit :=
  audio_data <- _record_audio_chunk env ;;
  match audio_data with
  | Some d =>
      if (0 <? length d)%nat then
        speech <- _has_speech d env ;;
        if speech then
          text <- _transcribe_audio d env ;;
          match text with
          | Some t =>
              if str_truthy t && (0 <? String.length (strip t))%nat then
                put (strip t) env ;;;
                logging INFO ("ASR transcribed: " +:+ strip t)
              else ret tt
          | None => ret tt
          end
        else ret tt
      else ret tt
  | None => ret tt
  end ;;;
  sleep 100.

(** One turn of [while True: try: ... except Exception as e: ...]. *)
Definition cycle (env : cycle_env) : asr unit :=
  try_except (cycle_body env) is_Exception
    (fun e =>
       logging ERROR ("Error in audio processing loop: " +:+ exn_str e) ;;;
       sleep 1000).

(** The loop, run as long as the environment is described: one element
    of [envs] per cycle.  It stops early only if a cycle lets an
    exception through. *)
Fixpoint _audio_processing_loop (envs : list cycle_env) : asr unit :=
  match envs with
  | [] => ret tt
  | env :: rest => cycle env ;;; _audio_processing_loop rest
  end.

Definition _poll : asr (option string) :=
  sleep 100 ;;;
  o <- get_self ;;
  match message_buffer o with
  | message :: rest =>
      update (set_message_buffer rest) ;;; ret (Some message)
  | [] => ret None
  end.

Definition _raw_to_text (raw_input : option string) : asr (option string) :=
  ret raw_input.

(** [l[-1]] and [l[-1] = v]; an [IndexError] on the empty list. *)
Definition last_item (l : list string) : asr string :=
  match l !! (length l - 1)%nat with
  | Some x => ret x
  | None => raise IndexError
  end.

Definition set_last_item (l : list string) (v : string) : asr (list string) :=
  if (0 <? length l)%nat then ret (<[(length l - 1)%nat := v]> l)
  else raise IndexError.

Definition raw_to_text (raw_input : option string) : asr unit :=
  pending_message <- _raw_to_text raw_input ;;
  o <- get_self ;;
  match pending_message with
  | None =>
      if negb (length (messages o) =? 0)%nat
      then update (set_skip_sleep true)
      else ret tt
  | Some _ => ret tt
  end ;;;
  match pending_message with
  | Some m =>
      o <- get_self ;;
      if (length (messages o) =? 0)%nat then
        update (set_messages (messages o ++ [m]))
      else
        old <- last_item (messages o) ;;
        l <- set_last_item (messages o) (old +:+ " " +:+ m) ;;
        update (set_messages l)
  | None => ret tt
  end.

(** Modelled from the spec: [IOProvider.add_input] and
    [IOProvider.add_mode_transition_input] of [providers/io_provider.py],
    which is not among the sources: the input log receives the label, the
    text and the time stamp, and a mode transition notification carries the
    same text. *)
Definition add_input (label text : string) (timestamp : Z) : asr unit :=
  update (fun o =>
    set_io (io_inputs o ++ [(label, text, timestamp)]) (io_mode_transitions o) o).

(** Modelled from the spec: see [add_input]. *)
Definition add_mode_transition_input (text : string) : asr unit :=
  update (fun o => set_io (io_inputs o) (io_mode_transitions o ++ [text]) o).

(** [now] is the value of [time.time()]. *)
Definition formatted_latest_buffer (now : Z) : asr (option string) :=
  o <- get_self ;;
  if (length (messages o) =? 0)%nat then ret None
  else
    latest <- last_item (messages o) ;;
    let result :=
      nl +:+ "INPUT: " +:+ descriptor_for_LLM o +:+ nl
      +:+ "// START" +:+ nl
      +:+ latest +:+ nl
      +:+ "// END" +:+ nl in
    add_input (descriptor_for_LLM o) latest now ;;;
    add_mode_transition_input latest ;;;
    update (set_messages []) ;;;
    ret (Some result).

(** *** Vocabulary of the properties of this module *)

(** The delivery block for an input kind and a text: a header naming the
    kind, a start marker, the text, an end marker. *)
Definition block (kind text : string) : string :=
  nl +:+ "INPUT: " +:+ kind +:+ nl +:+ "// START" +:+ nl
  +:+ text +:+ nl +:+ "// END" +:+ nl.

(** The operations of the message aggregator and a sequence of them. *)
Inductive op : Type :=
| Append (raw_input : option string)
| ReadAndClear (now : Z).

Definition run_op (o : op) : asr unit :=
  match o with
  | Append raw_input => raw_to_text raw_input
  | ReadAndClear now => formatted_latest_buffer now ;;; ret tt
  end.

Fixpoint run_ops (ops : list op) : asr unit :=
  match ops with
  | [] => ret tt
  | o :: rest => run_op o ;;; run_ops rest
  end.

(** What the gate answers on a chunk and what the dispatcher returns for
    it, for an object [o]: both are read off the methods themselves, run
    in a world that holds nothing but [o]. *)
Definition speech (d : bytes) (env : cycle_env) (o : LocalASRInput) : bool :=
  match frombuffer d with
  | Ret a => greater (numpy env) (rms a) (silence_threshold o)
  | Raise _ => false
  end.

Definition transcript (d : bytes) (env : cycle_env) (o : LocalASRInput)
  : result (option string) :=
  fst (_transcribe_audio d env (mkWorld o ∅ [])).

(** A transcription that carries no text. *)
Definition no_result (text : option string) : bool :=
  match text with None => true | Some t => all_space t end.

(** The message that a cycle hands to the queue, if any. *)
Definition accepted (env : cycle_env) (o : LocalASRInput) : option string :=
  match device env with
  | Ret d =>
      if (0 <? length d)%nat && speech d env o then
        match transcript d env o with
        | Ret (Some t) => if all_space t then None else Some (strip t)
        | _ => None
        end
      else None
  | Raise _ => None
  end.

(** How the body of a cycle ends, and the object and the delay at the end
    of the cycle. *)
Definition body_result (env : cycle_env) (o : LocalASRInput) : result unit :=
  match accepted env o, put_failure env with
  | Some _, Some e => Raise e
  | _, _ => Ret tt
  end.

Definition cycle_outcome (env : cycle_env) (o : LocalASRInput)
  : LocalASRInput * Z :=
  match accepted env o, put_failure env with
  | Some m, None => (set_message_buffer (message_buffer o ++ [m]) o, 100%Z)
  | Some m, Some _ => (o, 1000%Z)
  | None, _ => (o, 100%Z)
  end.

Definition logged (w : world LocalASRInput) (evs : list event)
  : world LocalASRInput :=
  mkWorld (self w) (fs w) (trace w ++ evs).

(** The dispatcher takes the branch of the hosted engine. *)
Definition hosted (o : LocalASRInput) : bool :=
  String.eqb (engine o) "openai-whisper" && openai_client o.

(** What [_transcribe_with_openai] returns, and what its temporary file
    holds when the call leaves it behind: nothing when the chunk does not
    decode, what [sf.write] wrote before it failed, the encoding when the
    hosted service fails; [None] when the file is removed. *)
Definition hosted_text (d : bytes) (env : cycle_env) : option string :=
  match frombuffer d, sf_write env, openai_reply env with
  | Ret _, Written _, Ret t => if str_truthy t then Some (strip t) else None
  | _, _, _ => None
  end.

Definition wav_left (d : bytes) (env : cycle_env) : option bytes :=
  match frombuffer d, sf_write env, openai_reply env with
  | Raise _, _, _ => Some []
  | Ret _, WriteFailed _ partial, _ => Some partial
  | Ret _, Written wav, Raise _ => Some wav
  | Ret _, Written _, Ret _ => None
  end.

Definition with_temp (left : option bytes) (f : gmap path bytes)
  : gmap path bytes :=
  match left with
  | Some content => <[fresh (dom f) := content]> f
  | None => f
  end.

(** The file system after a cycle: it changes only when the chunk goes
    to the hosted engine. *)
Definition files_after (env : cycle_env) (o : LocalASRInput)
           (f : gmap path bytes) : gmap path bytes :=
  match device env with
  | Ret d =>
      if (0 <? length d)%nat && speech d env o && hosted o
      then with_temp (wav_left d env) f
      else f
  | Raise _ => f
  end.

(** *** Concrete inputs *)

(** One sample 0.5, two samples 0.5, one sample 0.25, one sample 1.0. *)
Definition chunk_one_half : bytes := [x00; x00; x00; x3f]%byte.
Definition chunk_half : bytes :=
  [x00; x00; x00; x3f; x00; x00; x00; x3f]%byte.
Definition chunk_quarter : bytes := [x00; x00; x80; x3e]%byte.
Definition chunk_one : bytes := [x00; x00; x80; x3f]%byte.

(** Default configuration, no key: nothing in the buffers. *)
Definition asr_empty : world LocalASRInput :=
  mkWorld (__init__ (mkConfig None None) None false) ∅ [].

(** The local engine, default threshold 0.01. *)
Definition asr_local : world LocalASRInput :=
  mkWorld (__init__ (mkConfig (Some "faster-whisper") None) None true) ∅ [].

(** Silence threshold 0.5. *)
Definition asr_half : world LocalASRInput :=
  mkWorld (__init__ (mkConfig None (Some (of_bits64 0x3fe0000000000000)))
                    None false)
          ∅ [].

(** The bytes of a WAV file. *)
Definition wav_bytes : bytes := [x52; x49; x46; x46]%byte.

Definition env_device_fails : cycle_env :=
  mkCycle NumPy1 (Raise PortAudioError) (Written wav_bytes) (Ret "hello")
          (Ret ["hello"]) None.

Definition env_engine_fails : cycle_env :=
  mkCycle NumPy1 (Ret chunk_one_half) (Written wav_bytes) (Raise RuntimeError)
          (Raise RuntimeError) None.

Definition env_blank : cycle_env :=
  mkCycle NumPy2 (Ret chunk_one_half) (Written wav_bytes) (Ret "")
          (Ret [" "; " "]) None.

Definition env_hello : cycle_env :=
  mkCycle NumPy2 (Ret chunk_one_half) (Written wav_bytes) (Ret "")
          (Ret ["hel"; "lo"]) None.

(** The two NumPy, with nothing else in the environment. *)
Definition env_numpy1 : cycle_env :=
  mkCycle NumPy1 (Ret []) (Written []) (Ret "") (Ret []) None.

Definition env_numpy2 : cycle_env :=
  mkCycle NumPy2 (Ret []) (Written []) (Ret "") (Ret []) None.

(** Silence threshold 0.1, and one sample equal to the binary32 number
    nearest to 0.1, which is above 0.1. *)
Definition asr_tenth : world LocalASRInput :=
  mkWorld (__init__ (mkConfig None (Some (of_bits64 0x3fb999999999999a)))
                    None false)
          ∅ [].

Definition chunk_tenth : bytes := [xcd; xcc; xcc; x3d]%byte.

(** Sixteen samples: 0.5, fourteen times 2^-13, 0.5.  Their squares
    added from left to right make 0.5, and the root of 0.5 / 16 is the
    silence threshold of [asr_sixteen]. *)
Definition samples_sixteen : list f32 :=
  of_bits 0x3f000000 :: repeat (of_bits 0x39000000) 14 ++ [of_bits 0x3f000000].

Definition chunk_sixteen : bytes :=
  [x00; x00; x00; x3f]%byte
  ++ concat (repeat [x00; x00; x00; x39]%byte 14)
  ++ [x00; x00; x00; x3f]%byte.

Definition asr_sixteen : world LocalASRInput :=
  mkWorld (__init__ (mkConfig None (Some (of_bits64 0x3fc6a09e60000000))) None false)
          ∅ [].

(** The hosted engine: the disk is full when the WAV file is written. *)
Definition env_disk_full : cycle_env :=
  mkCycle NumPy2 (Ret chunk_one_half) (WriteFailed OSError [x52; x49]%byte)
          (Ret "hello") (Raise RuntimeError) None.

(** *** More vocabulary and inputs *)

(** [n] calls of [_poll] in a row, with what each returned. *)
Fixpoint poll_n (n : nat) : asr (list (option string)) :=
  match n with
  | O => ret []
  | S k => r <- _poll ;; rs <- poll_n k ;; ret (r :: rs)
  end.

(** Appending each text of a list, in order. *)
Definition append_all (texts : list string) : asr unit :=
  run_ops (map (fun t => Append (Some t)) texts).

(** The text, the label of an input-log record, and the reads among the
    operations. *)
Definition record_text (r : string * string * Z) : string := snd (fst r).
Definition record_label (r : string * string * Z) : string := fst (fst r).
Definition is_read (o : op) : bool :=
  match o with ReadAndClear _ => true | Append _ => false end.

(** Three bytes: not a whole sample. *)
Definition chunk_truncated : bytes := [x00; x00; x00]%byte.

(** The local engine is asked for, its package is missing, a key is
    there. *)
Definition asr_fallen_back : world LocalASRInput :=
  mkWorld (__init__ (mkConfig (Some "faster-whisper") None)
                    (Some "sk-test") false) ∅ [].

(** The hosted engine with a key. *)
Definition asr_cloud : world LocalASRInput :=
  mkWorld (__init__ (mkConfig None None) (Some "sk-test") false) ∅ [].

(** The hosted service answers with white space only. *)
Definition env_cloud_spaces : cycle_env :=
  mkCycle NumPy2 (Ret chunk_one_half) (Written wav_bytes) (Ret "  ")
          (Raise RuntimeError) None.

(** The hosted service cannot be reached. *)
Definition env_cloud_down : cycle_env :=
  mkCycle NumPy2 (Ret chunk_one_half) (Written wav_bytes) (Raise RuntimeError)
          (Raise RuntimeError) None.

(** A buffer that holds "a" and has seen an append without text. *)
Definition asr_hinted : world LocalASRInput :=
  snd (run_ops [Append (Some "a"); Append None] asr_empty).

End LocalASR.

(** ** [actions/speak/connector/local_elevenlabs_tts.py] *)

Module ElevenLabs.
Import Py World.

(** [self.session]: no session yet, an open one, a closed one. *)
Inductive session_state : Type := NoSession | OpenSession | ClosedSession.

Record LocalElevenLabsTTSConnector : Type := mkConnector {
  elevenlabs_api_key : option string;
  voice_id : string;
  model_id : string;
  piper_model : string;
  piper_executable : string;
  session : session_state;
  use_elevenlabs : bool
}.

Definition set_session (s : session_state) (o : LocalElevenLabsTTSConnector) :=
  mkConnector (elevenlabs_api_key o) (voice_id o) (model_id o) (piper_model o)
              (piper_executable o) s (use_elevenlabs o).

Definition tts (A : Type) : Type := py LocalElevenLabsTTSConnector A.

(** The entries of the [config] dictionary that the connector reads. *)
Record config : Type := mkConfig {
  cfg_voice_id : option string;
  cfg_model_id : option string;
  cfg_piper_model : option string;
  cfg_piper_executable : option string
}.

(** [config.get(key, default)] *)
Definition dict_get {A} (o : option A) (default : A) : A :=
  match o with Some a => a | None => default end.

(** The reply of the hosted service to [session.post]: the request fails
    with an exception, or a response arrives, with its status, its body
    ([response.read()]) and its text ([response.text()]). *)
Inductive http_reply : Type :=
| HttpFailure (e : exn)
| HttpResponse (status : Z) (body : result bytes) (error_text : result string).

(** What the outside world does during one call of [synthesize] or
    [speak]. *)
Record call_env : Type := mkEnv {
  http : http_reply;
  piper : process_outcome;
  (** [sf.read; sd.play; sd.wait] *)
  playback : result unit
}.

(** [probe] is the outcome of [piper --help].  With [text=True] the
    captured output is decoded inside [subprocess.run], before the return
    code is looked at: bytes that do not decode raise there. *)
Definition _check_piper_availability (probe : process_outcome) : tts unit :=
  try_except
    (o <- get_self ;;
     emit (Exec [piper_executable o; "--help"] None) ;;;
     match probe with
     | NotCompleted e => raise e
     | Exited returncode _ stderr =>
         outcome stderr ;;;
         if (returncode =? 0)%Z
         then logging INFO "Piper TTS is available for local synthesis."
         else logging WARNING
                "Piper TTS not found. Install with: pip install piper-tts"
     end)
    (fun e => is_TimeoutExpired e || is_FileNotFoundError e)
    (fun _ =>
       logging WARNING
         "Piper TTS not found. Install with: pip install piper-tts").

(** [api_key] is [os.getenv("ELEVENLABS_API_KEY")]; [probe] is the outcome
    of [piper --help], which is run only when no key is found. *)
Definition __init__ (cfg : config) (api_key : option string)
           (probe : process_outcome) : tts unit :=
  set_self
    (mkConnector api_key
       (dict_get (cfg_voice_id cfg) "EXAVITQu4vr4xnSDxMaL")
       (dict_get (cfg_model_id cfg) "eleven_monolingual_v1")
       (dict_get (cfg_piper_model cfg) "en_US-lessac-medium")
       (dict_get (cfg_piper_executable cfg) "piper")
       NoSession
       (opt_truthy str_truthy api_key)) ;;;
  o <- get_self ;;
  if negb (use_elevenlabs o) then
    logging INFO
      "ElevenLabs API key not found. Will use Piper TTS as fallback." ;;;
    _check_piper_availability probe
  else ret tt.

Definition _get_session : tts unit :=
  o <- get_self ;;
  match session o with
  | OpenSession => ret tt
  | NoSession | ClosedSession => set_self (set_session OpenSession o)
  end.

(** [text.encode()] and the text written to the text file. *)
Definition encode (text : string) : bytes := list_byte_of_string text.

Definition _synthesize_piper (text : string) (env : call_env)
  : tts (option bytes) :=
  try_except
    (text_file_path <- NamedTemporaryFile (encode text) ;;
     audio_file_path <- NamedTemporaryFile [] ;;
     o <- get_self ;;
     let cmd := [piper_executable o;
                 "--model"; piper_model o;
                 "--output_file"; path_str audio_file_path ".wav"] in
     emit (Exec cmd (Some text)) ;;;
     match piper env with
     | NotCompleted e => raise e
     | Exited returncode written stderr =>
         write_file audio_file_path written ;;;
         if (returncode =? 0)%Z then
           audio_data <- read_file audio_file_path ;;
           unlink text_file_path ;;;
           unlink audio_file_path ;;;
           logging INFO ("Piper TTS synthesized "
                         +:+ pretty (String.length text) +:+ " characters") ;;;
           ret (Some audio_data)
         else
           message <- outcome stderr ;;
           logging ERROR ("Piper TTS error: " +:+ message) ;;;
           unlink text_file_path ;;;
           unlink audio_file_path ;;;
           ret None
     end)
    is_Exception
    (fun e =>
       logging ERROR ("Piper synthesis error: " +:+ exn_str e) ;;;
       ret None).

Definition _synthesize_elevenlabs (text : string) (env : call_env)
  : tts (option bytes) :=
  try_except
    (o <- get_self ;;
     let url := "https://api.elevenlabs.io/v1/text-to-speech/" +:+ voice_id o in
     _get_session ;;;
     emit (HttpPost url text) ;;;
     match http env with
     | HttpFailure e => raise e
     | HttpResponse status body error_text =>
         if (status =? 200)%Z then
           audio_data <- outcome body ;;
           logging INFO ("ElevenLabs TTS synthesized "
                         +:+ pretty (String.length text) +:+ " characters") ;;;
           ret (Some audio_data)
         else
           message <- outcome error_text ;;
           logging ERROR ("ElevenLabs API error " +:+ pretty status
                          +:+ ": " +:+ message) ;;;
           logging INFO "Falling back to Piper TTS" ;;;
           _synthesize_piper text env
     end)
    is_Exception
    (fun e =>
       logging ERROR ("ElevenLabs synthesis error: " +:+ exn_str e) ;;;
       logging INFO "Falling back to Piper TTS" ;;;
       _synthesize_piper text env).

Definition synthesize (text : string) (env : call_env) : tts (option bytes) :=
  o <- get_self ;;
  if use_elevenlabs o
  then _synthesize_elevenlabs text env
  else _synthesize_piper text env.

Definition _play_audio (audio_data : bytes) (env : call_env) : tts unit :=
  try_except
    (temp_file_path <- NamedTemporaryFile audio_data ;;
     emit (Playback audio_data) ;;;
     outcome (playback env) ;;;
     unlink temp_file_path)
    is_Exception
    (fun e => logging ERROR ("Error playing audio: " +:+ exn_str e)).

Definition speak (text : string) (env : call_env) : tts bool :=
  try_except
    (audio_data <- synthesize text env ;;
     match audio_data with
     | Some audio =>
         if negb (bytes_truthy audio) then ret false
         else _play_audio audio env ;;; ret true
     | None => ret false
     end)
    is_Exception
    (fun e =>
       logging ERROR ("Error speaking text: " +:+ exn_str e) ;;;
       ret false).




(** *** Vocabulary of the properties of this module *)

(** The audio that the Piper subprocess yields: what it wrote to the
    output file when it exits with code 0 (nothing written leaves the
    empty file), no audio otherwise. *)
Definition piper_audio (o : process_outcome) : option bytes :=
  match o with
  | NotCompleted _ => None
  | Exited returncode written _ =>
      if (returncode =? 0)%Z
      then Some (match written with Some b => b | None => [] end)
      else None
  end.

(** The outcomes on which [_synthesize_piper] reaches its [os.unlink]
    calls. *)
Definition cleans_up (o : process_outcome) : bool :=
  match o with
  | NotCompleted _ => false
  | Exited returncode _ stderr =>
      (returncode =? 0)%Z
      || match stderr with Ret _ => true | Raise _ => false end
  end.

(** *** Concrete inputs *)

Definition connector0 : world LocalElevenLabsTTSConnector :=
  mkWorld (mkConnector None "" "" "" "" NoSession false) ∅ [].

Definition with_key : world LocalElevenLabsTTSConnector :=
  snd (__init__ (mkConfig None None None None) (Some "secret")
         (Exited 0 None (Ret "")) connector0).

Definition without_key : world LocalElevenLabsTTSConnector :=
  snd (__init__ (mkConfig None None None None) None
         (NotCompleted FileNotFoundError) connector0).

(** The service answers 500; Piper writes four bytes and exits with 0;
    the audio cannot be played. *)
Definition env_500_piper_ok : call_env :=
  mkEnv (HttpResponse 500 (Ret []) (Ret "Internal Server Error"))
        (Exited 0 (Some [x52; x49; x46; x46]%byte) (Ret ""))
        (Raise LibsndfileError).

(** The service answers 500; the Piper executable is not installed. *)
Definition env_500_piper_missing : call_env :=
  mkEnv (HttpResponse 500 (Ret []) (Ret "Internal Server Error"))
        (NotCompleted FileNotFoundError)
        (Ret tt).

(** *** The rest of the class, more vocabulary and inputs *)

(** [__aexit__] closes the session when there is one and it is open. *)
Definition __aexit__ : tts unit :=
  o <- get_self ;;
  match session o with
  | OpenSession => set_self (set_session ClosedSession o)
  | NoSession | ClosedSession => ret tt
  end.

(** The audio that the hosted service delivers: the body of a response
    with status 200, when the body can be read. *)
Definition primary_audio (r : http_reply) : option bytes :=
  match r with
  | HttpResponse status (Ret body) _ =>
      if (status =? 200)%Z then Some body else None
  | _ => None
  end.

(** What the chain returns for an environment. *)
Definition chain_audio (use : bool) (env : call_env) : option bytes :=
  if use then
    match primary_audio (http env) with
    | Some body => Some body
    | None => piper_audio (piper env)
    end
  else piper_audio (piper env).

Definition primary_delivers (use : bool) (env : call_env) : bool :=
  use && bool_decide (is_Some (primary_audio (http env))).

(** The exception that [subprocess.run] raises on a probe, if any: the
    one that kept the subprocess from running to its end, or the one of
    the decoding of its output. *)
Definition probe_raises (probe : process_outcome) : option exn :=
  match probe with
  | NotCompleted e => Some e
  | Exited _ _ (Raise e) => Some e
  | Exited _ _ (Ret _) => None
  end.

(** How the constructor ends: it lets through what the probe raises,
    other than a time out and a missing executable. *)
Definition init_result (api_key : option string) (probe : process_outcome)
  : result unit :=
  if opt_truthy str_truthy api_key then Ret tt
  else match probe_raises probe with
       | Some e =>
           if is_TimeoutExpired e || is_FileNotFoundError e
           then Ret tt else Raise e
       | None => Ret tt
       end.

(** A probe that runs to its end and whose output does not decode. *)
Definition probe_undecodable : process_outcome :=
  Exited 0 None (Raise UnicodeDecodeError).

Definition is_exec (ev : event) : bool :=
  match ev with Exec _ _ => true | _ => false end.

Definition env_200 : call_env :=
  mkEnv (HttpResponse 200 (Ret [x49; x44; x33]%byte) (Ret ""))
        (NotCompleted FileNotFoundError)
        (Ret tt).

Definition env_offline : call_env :=
  mkEnv (HttpFailure ClientError)
        (Exited 0 (Some [x52; x49; x46; x46]%byte) (Ret ""))
        (Ret tt).

End ElevenLabs.

(** ** [actions/speak/connector/piper_tts.py] *)

Module Piper.
Import Py World.

(** The prosody parameters are kept as the text that [str] gives them on
    the command line. *)
Record PiperTTSConnector : Type := mkConnector {
  model_path : string;
  config_path : string;
  speaker_id : option Z;
  length_scale : string;
  noise_scale : string;
  noise_w : string;
  piper_available : bool
}.

Definition tts (A : Type) : Type := py PiperTTSConnector A.

(** The attributes of the [ActionConfig] that the connector reads; an
    absent attribute is [None].  [cfg_speaker_id] is [Some None] when the
    attribute is present and holds [None]. *)
Record ActionConfig : Type := mkConfig {
  cfg_model_path : option string;
  cfg_config_path : option string;
  cfg_speaker_id : option (option Z);
  cfg_length_scale : option string;
  cfg_noise_scale : option string;
  cfg_noise_w : option string
}.

Definition getattr {A} (o : option A) (default : A) : A :=
  match o with Some a => a | None => default end.

(** What the outside world does during one call of [connect]:
    the outcome of the synthesis subprocess, and, for each audio player,
    its return code or the exception of [subprocess.run]. *)
Record call_env : Type := mkEnv {
  synthesis : process_outcome;
  player_run : string -> result Z
}.

(** The classes of [except (subprocess.TimeoutExpired, FileNotFoundError,
    subprocess.SubprocessError)]. *)
Definition probe_failure (e : exn) : bool :=
  is_TimeoutExpired e || is_FileNotFoundError e || is_SubprocessError e.

(** [probe1] is the outcome of [piper --version] and [probe2] that of
    [python -m piper --version]: a return code or an exception. *)
Definition _check_piper_availability (probe1 probe2 : result Z) : tts bool :=
  try_except
    (emit (Exec ["piper"; "--version"] None) ;;;
     returncode <- outcome probe1 ;;
     ret (returncode =? 0)%Z)
    probe_failure
    (fun _ =>
       try_except
         (emit (Exec ["python"; "-m"; "piper"; "--version"] None) ;;;
          returncode <- outcome probe2 ;;
          ret (returncode =? 0)%Z)
         probe_failure
         (fun _ => ret false)).

Definition __init__ (cfg : ActionConfig) (probe1 probe2 : result Z)
  : tts unit :=
  available <- _check_piper_availability probe1 probe2 ;;
  set_self
    (mkConnector
       (getattr (cfg_model_path cfg)
          "/usr/local/share/piper/voices/en_US-lessac-medium.onnx")
       (getattr (cfg_config_path cfg)
          "/usr/local/share/piper/voices/en_US-lessac-medium.onnx.json")
       (getattr (cfg_speaker_id cfg) (Some 0%Z))
       (getattr (cfg_length_scale cfg) "1.0")
       (getattr (cfg_noise_scale cfg) "0.667")
       (getattr (cfg_noise_w cfg) "0.8")
       available) ;;;
  if negb available then
    logging WARNING "Piper TTS not available. Speech will be logged only."
  else ret tt.

(** Returns the path of the generated audio file, or [None].  With
    [text=True] the standard error is decoded inside [subprocess.run],
    before the return code is looked at. *)
Definition _synthesize_with_piper (text : string) (env : call_env)
  : tts (option path) :=
  try_except
    (output_path <- NamedTemporaryFile [] ;;
     o <- get_self ;;
     let cmd :=
       ["piper";
        "--model"; model_path o;
        "--config"; config_path o;
        "--output_file"; path_str output_path ".wav"]
       ++ match speaker_id o with
          | Some n => ["--speaker"; pretty n]
          | None => []
          end
       ++ ["--length_scale"; length_scale o]
       ++ ["--noise_scale"; noise_scale o]
       ++ ["--noise_w"; noise_w o] in
     emit (Exec cmd (Some text)) ;;;
     match synthesis env with
     | NotCompleted e => raise e
     | Exited returncode written stderr =>
         write_file output_path written ;;;
         message <- outcome stderr ;;
         if (returncode =? 0)%Z then
           logging INFO ("Piper TTS synthesis successful: "
                         +:+ path_str output_path ".wav") ;;;
           ret (Some output_path)
         else
           logging ERROR ("Piper TTS failed: " +:+ message) ;;;
           present <- exists_ output_path ;;
           (if present then unlink output_path else ret tt) ;;;
           ret None
     end)
    is_Exception
    (fun e =>
       if is_TimeoutExpired e then
         logging ERROR "Piper TTS synthesis timed out" ;;;
         ret None
       else
         logging ERROR ("Piper TTS synthesis error: " +:+ exn_str e) ;;;
         ret None).

(** The [for player in players] loop of [_play_audio]. *)
Fixpoint try_players (players : list string) (audio_path : path)
         (env : call_env) : tts bool :=
  match players with
  | [] =>
      logging WARNING "No suitable audio player found" ;;;
      ret false
  | player :: rest =>
      played <-
        try_except
          (emit (Exec [player; path_str audio_path ".wav"] None) ;;;
           returncode <- outcome (player_run env player) ;;
           if (returncode =? 0)%Z then
             logging INFO ("Audio played successfully with " +:+ player) ;;;
             ret true
           else ret false)
          (fun e => is_FileNotFoundError e || is_TimeoutExpired e)
          (fun _ => ret false) ;;
      if played then ret true else try_players rest audio_path env
  end.

Definition _play_audio (audio_path : path) (env : call_env) : tts bool :=
  try_except
    (try_players ["aplay"; "paplay"; "play"; "ffplay"] audio_path env)
    is_Exception
    (fun e =>
       logging ERROR ("Audio playback error: " +:+ exn_str e) ;;;
       ret false).

(** The name of a temporary file is never the empty string, so that
    [if audio_path:] tests whether the synthesis returned a path. *)
Definition connect (sentence : string) (env : call_env) : tts unit :=
  logging INFO ("Piper TTS speaking: " +:+ sentence) ;;;
  o <- get_self ;;
  if negb (piper_available o) then
    logging INFO ("[MOCK TTS] Would speak: " +:+ sentence)
  else
    audio_path <- _synthesize_with_piper sentence env ;;
    match audio_path with
    | Some p =>
        success <- _play_audio p env ;;
        try_except (unlink p) is_OSError (fun _ => ret tt) ;;;
        if negb success then
          logging WARNING ("Audio synthesis succeeded but playback failed: "
                           +:+ sentence)
        else ret tt
    | None =>
        logging ERROR ("Failed to synthesize speech: " +:+ sentence)
    end.

Fixpoint connect_all (calls : list (string * call_env)) : tts unit :=
  match calls with
  | [] => ret tt
  | (sentence, env) :: rest => connect sentence env ;;; connect_all rest
  end.

(** *** Vocabulary of the properties of this module *)

(** What a call of [connect] logs when Piper is not available. *)
Definition mock_log (sentence : string) : list event :=
  [Log INFO ("Piper TTS speaking: " +:+ sentence);
   Log INFO ("[MOCK TTS] Would speak: " +:+ sentence)].

Definition mock_logs (calls : list (string * call_env)) : list event :=
  flat_map (fun c => mock_log (fst c)) calls.

(** The synthesis subprocess exited with code 0. *)
Definition succeeded (o : process_outcome) : bool :=
  match o with
  | Exited rc _ (Ret _) => (rc =? 0)%Z
  | _ => false
  end.

(** *** Concrete inputs *)

Definition piper0 : world PiperTTSConnector :=
  mkWorld (mkConnector "" "" None "" "" "" false) ∅ [].

Definition no_config : ActionConfig := mkConfig None None None None None None.

(** [piper] is not installed and [python -m piper] exits with 1. *)
Definition piper_missing : world PiperTTSConnector :=
  snd (__init__ no_config (Raise FileNotFoundError) (Ret 1%Z) piper0).

Definition piper_ready : world PiperTTSConnector :=
  snd (__init__ no_config (Ret 0%Z) (Ret 0%Z) piper0).

(** The synthesis does not end within its 30 seconds. *)
Definition env_timeout : call_env :=
  mkEnv (NotCompleted TimeoutExpired) (fun _ => Ret 0%Z).

Definition env_ok : call_env :=
  mkEnv (Exited 0 (Some [x52; x49; x46; x46]%byte) (Ret ""))
        (fun _ => Ret 0%Z).

(** *** More vocabulary and inputs *)

(** The list of [_play_audio]. *)
Definition players : list string := ["aplay"; "paplay"; "play"; "ffplay"].

(** A run of a player that plays the file, and one after which the next
    player is tried. *)
Definition plays (r : result Z) : bool :=
  match r with Ret rc => (rc =? 0)%Z | Raise _ => false end.

Definition skipped (r : result Z) : bool :=
  match r with
  | Ret rc => negb (rc =? 0)%Z
  | Raise e => is_FileNotFoundError e || is_TimeoutExpired e
  end.

(** The [i]-th player of [l] plays the file and all the players before it
    were skipped. *)
Definition first_to_play (env : call_env) (l : list string) (i : nat) : Prop :=
  (exists player, l !! i = Some player /\ plays (player_run env player) = true)
  /\ forall j q, (j < i)%nat -> l !! j = Some q ->
                 skipped (player_run env q) = true.

(** A subprocess that is not fed any input: a player (or a probe). *)
Definition is_player_run (ev : event) : bool :=
  match ev with Exec _ None => true | _ => false end.

Definition is_exec (ev : event) : bool :=
  match ev with Exec _ _ => true | _ => false end.

(** Only [play] is installed. *)
Definition env_only_play : call_env :=
  mkEnv (Exited 0 (Some [x52; x49; x46; x46]%byte) (Ret ""))
        (fun player =>
           if String.eqb player "play" then Ret 0%Z
           else Raise FileNotFoundError).

(** No player is installed. *)
Definition env_no_player : call_env :=
  mkEnv (Exited 0 (Some [x52; x49; x46; x46]%byte) (Ret ""))
        (fun _ => Raise FileNotFoundError).

End Piper.

(** * Properties *)

(** ** Strings *)

Module PyFacts.
Import Py.

Lemma all_space_lstrip s : all_space (lstrip s) = all_space s.
Proof.
  induction s as [|c s IH]; simpl; [reflexivity|].
  destruct (is_space c) eqn:Hc; simpl; [exact IH | now rewrite Hc].
Qed.

Lemma rstrip_empty_iff s : rstrip s = "" <-> all_space s = true.
Proof.
  induction s as [|c s IH]; simpl; [tauto|].
  destruct (rstrip s) eqn:Hr.
  - destruct (is_space c); simpl.
    + split; [intros _; now apply IH | reflexivity].
    + split; discriminate.
  - split; [discriminate|].
    intros H. apply andb_true_iff in H as [_ H].
    apply IH in H. discriminate.
Qed.

(** [strip] leaves nothing exactly of the strings made of white space. *)
Lemma strip_empty_iff s : strip s = "" <-> all_space s = true.
Proof.
  unfold strip. rewrite rstrip_empty_iff. now rewrite all_space_lstrip.
Qed.

Lemma strip_nonempty s : all_space s = false -> strip s <> "".
Proof.
  intros H Hs. apply strip_empty_iff in Hs. congruence.
Qed.

Lemma length_pos_truthy s : (0 <? String.length s)%nat = str_truthy s.
Proof. destruct s; reflexivity. Qed.

(** The test [text and len(text.strip()) > 0]. *)
Lemma blank_test s :
  str_truthy s && (0 <? String.length (strip s))%nat = negb (all_space s).
Proof.
  rewrite length_pos_truthy.
  destruct (all_space s) eqn:Hs; simpl.
  - apply strip_empty_iff in Hs. rewrite Hs. simpl. apply andb_false_r.
  - destruct s as [|c s]; [discriminate|]. simpl str_truthy at 1. simpl andb.
    destruct (strip (String c s)) eqn:E; [|reflexivity].
    apply strip_empty_iff in E. congruence.
Qed.

End PyFacts.

(** ** Comparisons and sums of floating-point numbers *)

Module Float32Facts.
Import Float32.

Lemma SFcompare_antisym x y :
  SFcompare y x = option_map CompOpp (SFcompare x y).
Proof.
  destruct x as [sx|sx| |sx mx ex], y as [sy|sy| |sy my ey]; simpl;
    try reflexivity; try (destruct sx; reflexivity);
    try (destruct sy; reflexivity);
    try (destruct sx, sy; reflexivity).
  assert (Hm : Pos.compare_cont Eq my mx = CompOpp (Pos.compare_cont Eq mx my))
    by (now rewrite Pos.compare_cont_antisym).
  destruct sx, sy; simpl; try reflexivity;
    rewrite (Z.compare_antisym ex ey), Hm;
    destruct (ex ?= ey)%Z; simpl; reflexivity.
Qed.

Lemma lt_not_gt x y : lt x y = true -> gt x y = false.
Proof.
  unfold lt, gt, SFltb. rewrite (SFcompare_antisym x y).
  destruct (SFcompare x y) as [[]|]; simpl; congruence.
Qed.

Lemma eq_not_gt x y : eq x y = true -> gt x y = false.
Proof.
  unfold eq, gt, SFeqb, SFltb. rewrite (SFcompare_antisym x y).
  destruct (SFcompare x y) as [[]|]; simpl; congruence.
Qed.

Lemma gt_nan_l x : gt S754_nan x = false.
Proof. unfold gt, SFltb. destruct x; reflexivity. Qed.

(** A NaN is above no threshold, whatever the NumPy. *)
Lemma greater_nan p t : greater p S754_nan t = false.
Proof. destruct p; apply gt_nan_l. Qed.

(** The root mean square of no sample is a NaN. *)
Lemma rms_nil : rms [] = S754_nan.
Proof. reflexivity. Qed.

(** The depth of the splitting: an array longer than 128 numbers is split
    into two shorter arrays, so that the length of the array is fuel
    enough and more fuel changes nothing. *)
Lemma split_shorter n :
  (128 < n)%nat ->
  (0 < n / 2 - (n / 2) mod 8 < n)%nat.
Proof.
  intros H.
  pose proof (Nat.mod_upper_bound (n / 2) 8 ltac:(lia)).
  pose proof (Nat.Div0.div_lt_upper_bound n 2 n ltac:(lia)).
  assert (64 <= n / 2)%nat by (apply Nat.div_le_lower_bound; lia).
  lia.
Qed.

Lemma pairwise_sum_fuel f : forall f' a,
  (length a <= f)%nat -> (length a <= f')%nat ->
  pairwise_sum f a = pairwise_sum f' a.
Proof.
  induction f as [|f IH]; intros f' a Hf Hf'.
  - destruct a; [|simpl in Hf; lia]. destruct f'; reflexivity.
  - destruct f' as [|f'].
    + destruct a; [|simpl in Hf'; lia]. reflexivity.
    + cbn [pairwise_sum].
      destruct (length a <? 8)%nat eqn:H8; [reflexivity|].
      destruct (length a <=? 128)%nat eqn:H128; [reflexivity|].
      apply Nat.leb_gt in H128.
      pose proof (split_shorter (length a) H128) as Hn.
      rewrite (IH f' (take _ a)), (IH f' (drop _ a));
        rewrite ?length_take, ?length_drop; try lia.
      reflexivity.
Qed.

End Float32Facts.

(** ** Temporary files and traces *)

Module WorldFacts.
Import Py World.

Lemma fresh_absent (f : gmap path bytes) : f !! fresh (dom f) = None.
Proof. apply not_elem_of_dom, is_fresh. Qed.

Lemma fresh_twice (f : gmap path bytes) c :
  fresh (dom (<[fresh (dom f) := c]> f)) <> fresh (dom f)
  /\ f !! fresh (dom (<[fresh (dom f) := c]> f)) = None.
Proof.
  pose proof (is_fresh (dom (<[fresh (dom f) := c]> f))) as H.
  set (a := fresh (dom (<[fresh (dom f) := c]> f))) in *.
  rewrite dom_insert_L in H. split.
  - intros E. apply H. rewrite E. set_solver.
  - apply not_elem_of_dom. set_solver.
Qed.

(** Creating a temporary file and removing it gives the file system
    back. *)
Lemma delete_temp (f : gmap path bytes) p c :
  f !! p = None -> delete p (<[p := c]> f) = f.
Proof. intros H. rewrite delete_insert_eq. now apply delete_id. Qed.

Lemma delete_two_temps (f : gmap path bytes) t a c1 c2 :
  f !! t = None -> f !! a = None -> a <> t ->
  delete a (delete t (<[a := c2]> (<[t := c1]> f))) = f.
Proof.
  intros Ht Ha Hne. apply map_eq. intros i.
  destruct (decide (i = a)) as [->|]; [now rewrite lookup_delete_eq|].
  rewrite lookup_delete_ne by congruence.
  destruct (decide (i = t)) as [->|]; [now rewrite lookup_delete_eq|].
  rewrite lookup_delete_ne by congruence.
  now rewrite !lookup_insert_ne by congruence.
Qed.

Ltac lookup_step :=
  first [ rewrite lookup_insert_eq
        | rewrite lookup_insert_ne by congruence
        | rewrite lookup_delete_ne by congruence ].

Lemma count_app p a b : count p (a ++ b) = (count p a + count p b)%nat.
Proof. unfold count. now rewrite filter_app, length_app. Qed.

Lemma count_cons p ev evs :
  count p (ev :: evs) = ((if p ev then 1 else 0) + count p evs)%nat.
Proof.
  unfold count. rewrite filter_cons.
  destruct (p ev); case_decide; simpl; congruence.
Qed.

Lemma count_logs p evs :
  (forall lv msg, p (Log lv msg) = false) -> all_logs evs -> count p evs = 0%nat.
Proof.
  intros Hp. unfold all_logs.
  induction evs as [|ev evs IH]; simpl; [reflexivity|].
  intros H. apply andb_true_iff in H as [H1 H2].
  rewrite count_cons, (IH H2). destruct ev; try discriminate.
  now rewrite Hp.
Qed.

Lemma delays_app a b : delays (a ++ b) = delays a ++ delays b.
Proof. unfold delays. apply omap_app. Qed.

End WorldFacts.

(** ** The capture loop, the gate, the dispatcher and the aggregator *)

Module LocalASRFacts.
Import Py World Float32 LocalASR PyFacts Float32Facts WorldFacts.

Ltac py_unfold :=
  unfold asr, update, sleep, logging, bind, ret, raise, try_except, outcome,
    get_self, set_self, emit in *.

Lemma logged_logged w a b : logged (logged w a) b = logged w (a ++ b).
Proof. unfold logged. simpl. now rewrite app_assoc. Qed.

Lemma logged_nil (w : world LocalASRInput) : w = logged w [].
Proof. destruct w. unfold logged. simpl. now rewrite app_nil_r. Qed.

(** *** The three stages never raise and only log *)

Lemma delays_logs evs : all_logs evs -> delays evs = [].
Proof.
  unfold all_logs, delays.
  induction evs as [|ev evs IH]; simpl; [reflexivity|].
  intros H. apply andb_true_iff in H as [H1 H2].
  destruct ev; try discriminate. cbn. auto.
Qed.

Lemma record_spec env w :
  exists evs,
    _record_audio_chunk env w =
    (Ret (match device env with Ret d => Some d | Raise _ => None end),
     logged w evs)
    /\ delays evs = [].
Proof.
  unfold _record_audio_chunk. py_unfold.
  destruct (device env); simpl.
  - exists []. split; [|reflexivity]. now rewrite <- logged_nil.
  - eexists. split; reflexivity.
Qed.

Lemma has_speech_spec d env w :
  exists evs,
    _has_speech d env w = (Ret (speech d env (self w)), logged w evs)
    /\ delays evs = [].
Proof.
  unfold _has_speech, speech. py_unfold.
  destruct (frombuffer d); simpl.
  - exists []. split; [|reflexivity]. now rewrite <- logged_nil.
  - eexists. split; reflexivity.
Qed.

(** The hosted transcription never raises; its temporary file is gone
    after the call exactly when no step has raised. *)
Lemma transcribe_with_openai_spec d env w :
  exists evs,
    _transcribe_with_openai d env w =
    (Ret (hosted_text d env),
     mkWorld (self w) (with_temp (wav_left d env) (fs w)) (trace w ++ evs))
    /\ all_logs evs.
Proof.
  pose proof (fresh_absent (fs w)) as Ht.
  unfold _transcribe_with_openai, hosted_text, wav_left, with_temp,
    NamedTemporaryFile, write_file, read_file, unlink.
  py_unfold. cbn [self fs trace].
  destruct (frombuffer d); cbn; [|eexists; split; reflexivity].
  destruct (sf_write env) as [wav|e partial]; cbn;
    [|rewrite insert_insert_eq; eexists; split; reflexivity].
  rewrite lookup_insert_eq. cbn.
  destruct (openai_reply env); cbn.
  - rewrite lookup_insert_eq. cbn.
    rewrite insert_insert_eq, delete_temp by assumption.
    exists []. rewrite app_nil_r. split; reflexivity.
  - rewrite insert_insert_eq. eexists. split; reflexivity.
Qed.

Lemma transcribe_spec d env w :
  exists evs,
    _transcribe_audio d env w =
    (transcript d env (self w),
     mkWorld (self w)
       (if hosted (self w) then with_temp (wav_left d env) (fs w) else fs w)
       (trace w ++ evs))
    /\ delays evs = [].
Proof.
  unfold transcript, _transcribe_audio, hosted.
  unfold try_except, bind, get_self. cbn [self fs trace].
  destruct (String.eqb (engine (self w)) "openai-whisper"
            && openai_client (self w)).
  - destruct (transcribe_with_openai_spec d env w) as (e1 & H1 & L1).
    destruct (transcribe_with_openai_spec d env (mkWorld (self w) ∅ []))
      as (e2 & H2 & _).
    rewrite H1, H2. cbn. exists e1. split; [reflexivity|].
    now apply delays_logs.
  - unfold _transcribe_with_faster_whisper. py_unfold.
    destruct w as [o f tr]. cbn [self fs trace].
    destruct (String.eqb (engine o) "faster-whisper"
              && faster_whisper_model o).
    + destruct (frombuffer d); simpl; [|eexists; split; reflexivity].
      destruct (whisper_reply env); simpl; [|eexists; split; reflexivity].
      exists []. rewrite app_nil_r. split; reflexivity.
    + simpl. eexists. split; reflexivity.
Qed.

Lemma transcript_returns d env o : exists text, transcript d env o = Ret text.
Proof.
  unfold transcript, _transcribe_audio.
  unfold try_except, bind, get_self. cbn [self fs trace].
  destruct (String.eqb (engine o) "openai-whisper" && openai_client o).
  - destruct (transcribe_with_openai_spec d env (mkWorld o ∅ []))
      as (e2 & H2 & _).
    rewrite H2. eexists. reflexivity.
  - unfold _transcribe_with_faster_whisper. py_unfold. cbn [self fs trace].
    destruct (String.eqb (engine o) "faster-whisper" && faster_whisper_model o).
    + destruct (frombuffer d); simpl; [|eexists; reflexivity].
      destruct (whisper_reply env); simpl; eexists; reflexivity.
    + simpl. eexists. reflexivity.
Qed.

(** *** One cycle *)

Ltac use_delays :=
  rewrite ?delays_app;
  repeat match goal with H : delays _ = [] |- _ => rewrite H end.

Ltac body_done :=
  unfold ret, sleep, emit, logged; simpl; rewrite <- ?app_assoc;
  eexists; split; [reflexivity|]; use_delays; reflexivity.

Lemma cycle_body_spec env w :
  exists evs,
    cycle_body env w =
    (body_result env (self w),
     mkWorld (fst (cycle_outcome env (self w)))
             (files_after env (self w) (fs w)) (trace w ++ evs))
    /\ delays evs = match body_result env (self w) with
                    | Ret _ => [100%Z]
                    | Raise _ => []
                    end.
Proof.
  destruct (record_spec env w) as (e1 & H1 & D1).
  unfold cycle_body, cycle_outcome, body_result, accepted, files_after.
  unfold bind at 1 2. rewrite H1.
  destruct (device env) as [d|e]; simpl; [|body_done].
  destruct (0 <? length d)%nat; simpl; [|body_done].
  destruct (has_speech_spec d env (logged w e1)) as (e2 & H2 & D2).
  unfold bind at 1. rewrite H2. simpl. rewrite logged_logged.
  destruct (speech d env (self w)); simpl; [|body_done].
  destruct (transcribe_spec d env (logged w (e1 ++ e2))) as (e3 & H3 & D3).
  unfold bind at 1. rewrite H3. cbn [logged self fs trace].
  rewrite <- app_assoc.
  set (f' := if hosted (self w) then _ else _).
  destruct (transcript_returns d env (self w)) as [text Ht]. rewrite Ht.
  destruct text as [t|]; simpl; [|body_done].
  rewrite blank_test.
  destruct (all_space t); simpl; [body_done|].
  unfold put. destruct (put_failure env) as [e|]; py_unfold; simpl.
  - eexists; split; [reflexivity|].
    use_delays. reflexivity.
  - rewrite <- !app_assoc.
    eexists; split; [reflexivity|]. use_delays. reflexivity.
Qed.

Lemma cycle_spec env w :
  exists evs,
    cycle env w =
    (Ret tt, mkWorld (fst (cycle_outcome env (self w)))
                     (files_after env (self w) (fs w)) (trace w ++ evs))
    /\ delays evs = [match fst (cycle_body env w) with
                     | Ret _ => 100%Z
                     | Raise _ => 1000%Z
                     end].
Proof.
  destruct (cycle_body_spec env w) as (evs & H & D).
  unfold cycle, try_except. rewrite H. simpl.
  destruct (body_result env (self w)) as [[]|e]; simpl.
  - exists evs. split; [reflexivity | exact D].
  - py_unfold. simpl. rewrite <- !app_assoc.
    eexists. split; [reflexivity|]. rewrite delays_app, D. reflexivity.
Qed.

Lemma cycle_queue env w :
  message_buffer (self (snd (cycle env w))) =
  message_buffer (fst (cycle_outcome env (self w))).
Proof.
  destruct (cycle_spec env w) as (evs & H & _). rewrite H. reflexivity.
Qed.

(** A cycle keeps every file that was there and leaves at most one
    more. *)
Lemma with_temp_grows left (f : gmap path bytes) :
  f ⊆ with_temp left f /\ (size (with_temp left f) <= size f + 1)%nat.
Proof.
  destruct left as [c|]; cbn; [|split; [reflexivity | lia]].
  pose proof (fresh_absent f) as Ht. split.
  - now apply insert_subseteq.
  - rewrite map_size_insert_None by assumption. lia.
Qed.

Lemma files_after_grows env o (f : gmap path bytes) :
  f ⊆ files_after env o f /\ (size (files_after env o f) <= size f + 1)%nat.
Proof.
  unfold files_after.
  destruct (device env) as [d|]; [|split; [reflexivity | lia]].
  destruct (_ && _); [apply with_temp_grows | split; [reflexivity | lia]].
Qed.

Lemma files_after_not_hosted env o (f : gmap path bytes) :
  hosted o = false -> files_after env o f = f.
Proof.
  intros H. unfold files_after. rewrite H.
  destruct (device env); [|reflexivity]. now rewrite andb_false_r.
Qed.

(** *** The loop: induction on the cycles *)

Lemma loop_spec envs : forall w,
  exists w' evs,
    _audio_processing_loop envs w = (Ret tt, w')
    /\ fs w ⊆ fs w'
    /\ trace w' = trace w ++ evs
    /\ length (delays evs) = length envs.
Proof.
  induction envs as [|env envs IH]; intros w; simpl.
  - exists w, []. unfold ret. rewrite app_nil_r. auto.
  - destruct (cycle_spec env w) as (e1 & H1 & D1).
    unfold bind. rewrite H1.
    match goal with |- context [_audio_processing_loop envs ?w1] =>
      destruct (IH w1) as (w' & e2 & H2 & F2 & T2 & L2) end.
    simpl in *. exists w', (e1 ++ e2). rewrite H2, T2, <- app_assoc.
    repeat split; auto.
    + etransitivity; [apply files_after_grows | exact F2].
    + rewrite delays_app, length_app, D1, L2. reflexivity.
Qed.

(** The order of the additions shows in the last bits.  For sixteen
    samples, 0.5, fourteen times 2^-13 and 0.5, the squares added from
    left to right make 0.5, every small square being lost on the way;
    the sum that NumPy takes keeps them, and so does the root mean
    square. *)
Lemma rms_of_sixteen_samples :
  frombuffer chunk_sixteen = Ret samples_sixteen
  /\ sum_left (S754_zero false) (square samples_sixteen) = of_bits 0x3f000000
  /\ sum (square samples_sixteen) = of_bits 0x3f000003
  /\ rms samples_sixteen = of_bits 0x3e3504f5
  /\ to_f32 (silence_threshold (self asr_sixteen)) = of_bits 0x3e3504f3.
Proof. vm_compute. repeat split; reflexivity. Qed.

(** C2 (as amended): the gate compares strictly.  For every chunk that
    decodes to samples, take the root mean square of the samples and the
    silence threshold as the comparison takes them: both in double
    precision under NumPy 1, both in single precision, the threshold
    rounded to it, under NumPy 2.  [_has_speech] returns false when the
    root mean square is below the threshold and when it is equal to it,
    and true when it is above. *)
Theorem has_speech_strictly_above_threshold audio_data env w a :
  frombuffer audio_data = Ret a ->
  let numbers := compared (numpy env) (rms a) (silence_threshold (self w)) in
  let level := fst numbers in
  let threshold := snd numbers in
  (lt level threshold = true ->
   fst (_has_speech audio_data env w) = Ret false)
  /\ (eq level threshold = true ->
      fst (_has_speech audio_data env w) = Ret false)
  /\ (gt level threshold = true ->
      fst (_has_speech audio_data env w) = Ret true)
  /\ (numpy env = NumPy1 ->
      level = to_f64 (rms a) /\ threshold = silence_threshold (self w))
  /\ (numpy env = NumPy2 ->
      level = rms a /\ threshold = to_f32 (silence_threshold (self w))).
Proof.
  intros Ha numbers level threshold.
  destruct (has_speech_spec audio_data env w) as (evs & H & _).
  rewrite H. unfold speech, greater. rewrite Ha. simpl.
  fold numbers. fold level threshold.
  split; [|split; [|split; [|split]]]; intros Hc.
  - now rewrite (lt_not_gt _ _ Hc).
  - now rewrite (eq_not_gt _ _ Hc).
  - now rewrite Hc.
  - subst level threshold numbers. rewrite Hc. split; reflexivity.
  - subst level threshold numbers. rewrite Hc. split; reflexivity.
Qed.

Lemma has_speech_strictly_above_threshold_witness :
  fst (_has_speech chunk_quarter env_numpy1 asr_half) = Ret false
  /\ fst (_has_speech chunk_half env_numpy2 asr_half) = Ret false
  /\ fst (_has_speech chunk_one env_numpy1 asr_half) = Ret true
  /\ fst (_has_speech chunk_tenth env_numpy1 asr_tenth) = Ret true
  /\ fst (_has_speech chunk_tenth env_numpy2 asr_tenth) = Ret false
  /\ fst (_has_speech chunk_sixteen env_numpy2 asr_sixteen) = Ret true.
Proof.
  split; [|split; [|split; [|split; [|split]]]].
  - destruct (has_speech_strictly_above_threshold chunk_quarter env_numpy1
                asr_half [of_bits 0x3e800000] eq_refl) as (H & _).
    apply H. vm_compute. reflexivity.
  - destruct (has_speech_strictly_above_threshold chunk_half env_numpy2
                asr_half [of_bits 0x3f000000; of_bits 0x3f000000] eq_refl)
      as (_ & H & _).
    apply H. vm_compute. reflexivity.
  - destruct (has_speech_strictly_above_threshold chunk_one env_numpy1
                asr_half [of_bits 0x3f800000] eq_refl) as (_ & _ & H & _).
    apply H. vm_compute. reflexivity.
  - destruct (has_speech_strictly_above_threshold chunk_tenth env_numpy1
                asr_tenth [of_bits 0x3dcccccd] eq_refl) as (_ & _ & H & _).
    apply H. vm_compute. reflexivity.
  - destruct (has_speech_strictly_above_threshold chunk_tenth env_numpy2
                asr_tenth [of_bits 0x3dcccccd] eq_refl) as (_ & H & _).
    apply H. vm_compute. reflexivity.
  - destruct (has_speech_strictly_above_threshold chunk_sixteen env_numpy2
                asr_sixteen samples_sixteen eq_refl) as (_ & _ & H & _).
    apply H. vm_compute. reflexivity.
Defined.

(** C2 (as stated) fails on the boundary: two samples 0.5 have a root mean
    square of exactly 0.5; with the silence threshold at 0.5, which both
    precisions hold exactly, the gate answers false under either
    NumPy. *)
Lemma has_speech_at_threshold_is_false :
  frombuffer chunk_half = Ret [of_bits 0x3f000000; of_bits 0x3f000000]
  /\ rms [of_bits 0x3f000000; of_bits 0x3f000000] = of_bits 0x3f000000
  /\ silence_threshold (self asr_half) = of_bits64 0x3fe0000000000000
  /\ to_f64 (of_bits 0x3f000000) = of_bits64 0x3fe0000000000000
  /\ to_f32 (of_bits64 0x3fe0000000000000) = of_bits 0x3f000000
  /\ eq (of_bits64 0x3fe0000000000000) (of_bits64 0x3fe0000000000000) = true
  /\ eq (of_bits 0x3f000000) (of_bits 0x3f000000) = true
  /\ fst (_has_speech chunk_half env_numpy1 asr_half) = Ret false
  /\ fst (_has_speech chunk_half env_numpy2 asr_half) = Ret false.
Proof. vm_compute. repeat split; reflexivity. Qed.

(** C6 (as amended): no exception ends the capture loop, and the delay
    tells where the exception was caught.  Every cycle returns to the
    loop and takes exactly one delay: 1 second when an exception reaches
    the handler of the loop, 0.1 second otherwise.  An exception of the
    audio device, of the decoding of the chunk or of a recognition engine
    never reaches that handler, since the stage that meets it catches it:
    the only exception that the body of a cycle lets through is one raised
    when the transcript is put into the queue.  The loop runs one cycle for
    each described turn, whatever happens in the turns before. *)
Theorem capture_loop_survives :
  (forall env w,
     exists w' evs,
       cycle env w = (Ret tt, w')
       /\ trace w' = trace w ++ evs
       /\ delays evs = [match fst (cycle_body env w) with
                        | Ret _ => 100%Z
                        | Raise _ => 1000%Z
                        end]
       /\ match fst (cycle_body env w) with
          | Ret _ => True
          | Raise e => put_failure env = Some e
          end)
  /\ (forall envs w,
        exists w' evs,
          _audio_processing_loop envs w = (Ret tt, w')
          /\ trace w' = trace w ++ evs
          /\ length (delays evs) = length envs).
Proof.
  split.
  - intros env w. destruct (cycle_spec env w) as (evs & H & D).
    eexists _, evs. repeat split; [exact H | reflexivity | exact D |].
    destruct (cycle_body_spec env w) as (evs' & H' & _). rewrite H'. simpl.
    unfold body_result. destruct (accepted env (self w)); [|exact I].
    destruct (put_failure env); [reflexivity | exact I].
  - intros envs w. destruct (loop_spec envs w) as (w' & evs & H & _ & T & L).
    exists w', evs. auto.
Qed.

(** C6 (as stated) fails for the exceptions of the stages: when the audio
    device raises while recording, and when the recognition engine raises
    while transcribing, the cycle takes the delay of 0.1 second, not the
    delay of 1 second. *)
Lemma exception_in_stage_delays_100ms :
  device env_device_fails = Raise PortAudioError
  /\ delays (trace (snd (cycle env_device_fails asr_local))) = [100%Z]
  /\ whisper_reply env_engine_fails = Raise RuntimeError
  /\ speech chunk_one_half env_engine_fails (self asr_local) = true
  /\ delays (trace (snd (cycle env_engine_fails asr_local))) = [100%Z].
Proof. vm_compute. repeat split; reflexivity. Qed.

(** C7: the local engine's segments are joined with single spaces in the
    order of their emission, and the result is stripped.  For every chunk
    of whole samples and every sequence of segment texts,
    [_transcribe_with_faster_whisper] returns the stripped join (no text
    when the join is empty), and so does the dispatcher when the local
    engine is the configured one. *)
Theorem faster_whisper_joins_segments d env w segs :
  (length d mod 4 = 0)%nat ->
  whisper_reply env = Ret segs ->
  let text := join " " segs in
  let expected := if str_truthy text then Some (strip text) else None in
  fst (_transcribe_with_faster_whisper d env w) = Ret expected
  /\ (engine (self w) = "faster-whisper" ->
      faster_whisper_model (self w) = true ->
      fst (_transcribe_audio d env w) = Ret expected).
Proof.
  intros Hlen Hsegs text expected.
  assert (Hf : fst (_transcribe_with_faster_whisper d env w) = Ret expected).
  { unfold _transcribe_with_faster_whisper, frombuffer. py_unfold.
    rewrite Hlen, Hsegs. reflexivity. }
  split; [exact Hf|].
  intros He Hm. unfold _transcribe_audio.
  unfold try_except, bind at 1, get_self. rewrite He, Hm. simpl.
  destruct (_transcribe_with_faster_whisper d env w) as [[r|e] w'] eqn:E;
    simpl in *; congruence.
Qed.

Lemma faster_whisper_joins_segments_witness :
  fst (_transcribe_with_faster_whisper chunk_one_half env_hello asr_local)
  = Ret (Some "hel lo")
  /\ fst (_transcribe_audio chunk_one_half env_hello asr_local)
     = Ret (Some "hel lo").
Proof.
  destruct (faster_whisper_joins_segments chunk_one_half env_hello
              asr_local ["hel"; "lo"] eq_refl eq_refl) as [H1 H2].
  split; [exact H1 | exact (H2 eq_refl eq_refl)].
Defined.

(** C8: a transcription without text is not enqueued.  In a cycle whose
    chunk is [d], let [text] be what the dispatcher returns for [d].  If
    [text] is None, empty or made of white space only, the message buffer
    is the same after the cycle as before.  In every case the buffer is
    either unchanged or extended by one message, which is the stripped
    transcript and is not empty. *)
Theorem blank_transcript_not_enqueued env w d text :
  device env = Ret d ->
  transcript d env (self w) = Ret text ->
  let q := message_buffer (self w) in
  let q' := message_buffer (self (snd (cycle env w))) in
  (no_result text = true -> q' = q)
  /\ (q' = q \/ exists t, text = Some t /\ q' = q ++ [strip t] /\ strip t <> "").
Proof.
  intros Hd Ht q q'. subst q q'. rewrite cycle_queue.
  unfold cycle_outcome, accepted. rewrite Hd, Ht.
  destruct ((0 <? length d)%nat && speech d env (self w)); simpl; [|tauto].
  destruct text as [t|]; simpl; [|tauto].
  destruct (all_space t) eqn:Hs; simpl; [tauto|].
  destruct (put_failure env); simpl.
  - split; [discriminate | tauto].
  - split; [discriminate|]. right. exists t. repeat split.
    now apply strip_nonempty.
Qed.

Lemma blank_transcript_not_enqueued_witness :
  message_buffer (self (snd (cycle env_blank asr_local))) = []
  /\ (message_buffer (self (snd (cycle env_hello asr_local))) = []
      \/ exists t, Some "hel lo" = Some t
           /\ message_buffer (self (snd (cycle env_hello asr_local)))
              = [] ++ [strip t]
           /\ strip t <> "").
Proof.
  split.
  - apply (blank_transcript_not_enqueued env_blank asr_local
             chunk_one_half (Some "") eq_refl eq_refl).
    reflexivity.
  - apply (blank_transcript_not_enqueued env_hello asr_local
             chunk_one_half (Some "hel lo") eq_refl eq_refl).
Defined.

(** *** The message aggregator *)

Lemma last_item_spec (l : list string) x (w : world LocalASRInput) :
  last_item (l ++ [x]) w = (Ret x, w).
Proof.
  unfold last_item. rewrite length_app. simpl.
  replace (length l + 1 - 1)%nat with (length l) by lia.
  rewrite lookup_app_r by lia. rewrite Nat.sub_diag. reflexivity.
Qed.

Lemma set_last_item_spec (l : list string) x v (w : world LocalASRInput) :
  set_last_item (l ++ [x]) v w = (Ret (l ++ [v]), w).
Proof.
  unfold set_last_item. rewrite length_app. simpl.
  replace (length l + 1 - 1)%nat with (length l) by lia.
  replace (0 <? length l + 1)%nat with true
    by (symmetry; apply Nat.ltb_lt; lia).
  rewrite insert_app_r_alt by lia. rewrite Nat.sub_diag. reflexivity.
Qed.

Lemma raw_to_text_none w :
  raw_to_text None w =
  (Ret tt,
   mkWorld (if negb (length (messages (self w)) =? 0)%nat
            then set_skip_sleep true (self w) else self w)
           (fs w) (trace w)).
Proof.
  unfold raw_to_text, _raw_to_text. py_unfold. simpl.
  destruct (length (messages (self w)) =? 0)%nat; simpl; now destruct w.
Qed.

Lemma raw_to_text_first m w :
  messages (self w) = [] ->
  raw_to_text (Some m) w =
  (Ret tt, mkWorld (set_messages [m] (self w)) (fs w) (trace w)).
Proof.
  intros H. unfold raw_to_text, _raw_to_text. py_unfold. simpl.
  rewrite H. reflexivity.
Qed.

Lemma raw_to_text_next m l x w :
  messages (self w) = l ++ [x] ->
  raw_to_text (Some m) w =
  (Ret tt,
   mkWorld (set_messages (l ++ [x +:+ " " +:+ m]) (self w)) (fs w) (trace w)).
Proof.
  intros H. unfold raw_to_text, _raw_to_text.
  unfold bind at 1 2 3, ret at 1 2, get_self at 1. simpl.
  unfold bind at 1, get_self. simpl. rewrite H.
  replace (length (l ++ [x]) =? 0)%nat with false
    by (rewrite length_app; simpl; symmetry; apply Nat.eqb_neq; lia).
  unfold bind at 1. rewrite last_item_spec.
  unfold bind at 1. rewrite set_last_item_spec.
  reflexivity.
Qed.

Lemma formatted_empty now w :
  messages (self w) = [] -> formatted_latest_buffer now w = (Ret None, w).
Proof.
  intros H. unfold formatted_latest_buffer. py_unfold. rewrite H. reflexivity.
Qed.

Lemma formatted_nonempty now l x w :
  messages (self w) = l ++ [x] ->
  exists o',
    formatted_latest_buffer now w =
    (Ret (Some (block (descriptor_for_LLM (self w)) x)),
     mkWorld o' (fs w) (trace w))
    /\ messages o' = []
    /\ io_inputs o'
       = io_inputs (self w) ++ [(descriptor_for_LLM (self w), x, now)]
    /\ io_mode_transitions o' = io_mode_transitions (self w) ++ [x].
Proof.
  intros H. unfold formatted_latest_buffer.
  unfold bind at 1, get_self at 1. rewrite H.
  replace (length (l ++ [x]) =? 0)%nat with false
    by (rewrite length_app; simpl; symmetry; apply Nat.eqb_neq; lia).
  unfold bind at 1. rewrite last_item_spec.
  unfold add_input, add_mode_transition_input. py_unfold. simpl.
  eexists. split; [reflexivity|]. simpl. auto.
Qed.

(** C5: from an empty buffer, appending "a" then "b" leaves the single
    entry "a b"; reading then returns the block made of the header with
    the input kind, the start marker, "a b" and the end marker, and
    empties the buffer; reading again at once returns None. *)
Theorem append_then_read_and_clear w t1 t2 :
  messages (self w) = [] ->
  let w1 := snd (raw_to_text (Some "a") w) in
  let w2 := snd (raw_to_text (Some "b") w1) in
  let r3 := formatted_latest_buffer t1 w2 in
  let r4 := formatted_latest_buffer t2 (snd r3) in
  messages (self w2) = ["a b"]
  /\ fst r3 = Ret (Some (block (descriptor_for_LLM (self w)) "a b"))
  /\ messages (self (snd r3)) = []
  /\ fst r4 = Ret None
  /\ messages (self (snd r4)) = [].
Proof.
  intros H w1 w2 r3 r4. subst w1 w2 r3 r4.
  rewrite (raw_to_text_first "a" w H). cbn [snd fst].
  rewrite (raw_to_text_next "b" [] "a") by reflexivity. cbn [snd fst].
  match goal with |- context [formatted_latest_buffer t1 ?w2] =>
    destruct (formatted_nonempty t1 [] "a b" w2 eq_refl)
      as (o' & H3 & Hm & _) end.
  rewrite H3. cbn [snd fst]. rewrite formatted_empty by exact Hm.
  cbn [snd fst self]. repeat split; auto.
Qed.

Lemma append_then_read_and_clear_witness :
  let w1 := snd (raw_to_text (Some "a") asr_empty) in
  let w2 := snd (raw_to_text (Some "b") w1) in
  let r3 := formatted_latest_buffer 7 w2 in
  let r4 := formatted_latest_buffer 8 (snd r3) in
  messages (self w2) = ["a b"]
  /\ fst r3 = Ret (Some (block "Voice" "a b"))
  /\ messages (self (snd r3)) = []
  /\ fst r4 = Ret None
  /\ messages (self (snd r4)) = [].
Proof.
  exact (append_then_read_and_clear asr_empty 7 8 eq_refl).
Defined.

Lemma run_op_invariant o w :
  (length (messages (self w)) <= 1)%nat ->
  exists w',
    run_op o w = (Ret tt, w') /\ (length (messages (self w')) <= 1)%nat.
Proof.
  intros Hinv.
  destruct (messages (self w)) as [|x [|y l]] eqn:Hm; simpl in Hinv; [| |lia].
  - destruct o as [[m|]|now]; simpl.
    + rewrite (raw_to_text_first m w Hm). eexists; split; [reflexivity|].
      simpl. lia.
    + rewrite raw_to_text_none. rewrite Hm. simpl.
      eexists; split; [reflexivity|]. simpl. rewrite Hm. simpl. lia.
    + unfold bind. rewrite (formatted_empty now w Hm).
      eexists; split; [reflexivity|]. rewrite Hm. simpl. lia.
  - destruct o as [[m|]|now]; simpl.
    + rewrite (raw_to_text_next m [] x w Hm). eexists; split; [reflexivity|].
      simpl. lia.
    + rewrite raw_to_text_none. rewrite Hm. simpl.
      eexists; split; [reflexivity|]. simpl. destruct (self w); simpl in *.
      rewrite Hm. simpl. lia.
    + unfold bind.
      destruct (formatted_nonempty now [] x w Hm) as (o' & H & Hmsg & _).
      rewrite H. eexists; split; [reflexivity|]. simpl. rewrite Hmsg.
      simpl. lia.
Qed.

Lemma run_ops_invariant ops : forall w,
  (length (messages (self w)) <= 1)%nat ->
  exists w',
    run_ops ops w = (Ret tt, w') /\ (length (messages (self w')) <= 1)%nat.
Proof.
  induction ops as [|o ops IH]; intros w Hinv; simpl.
  - exists w. split; [reflexivity | exact Hinv].
  - destruct (run_op_invariant o w Hinv) as (w1 & H1 & Hinv1).
    unfold bind. rewrite H1. apply IH, Hinv1.
Qed.

(** C9: the utterance buffer holds at most one string.  From the empty
    buffer, every sequence of appends and of read-and-clear calls runs
    without an exception and leaves [messages] with length 0 or 1; an
    append on the empty buffer makes its text the only entry, and an
    append on a buffer with one entry replaces the entry by the entry, one
    space, the text. *)
Theorem utterance_buffer_at_most_one ops w :
  messages (self w) = [] ->
  (exists w',
     run_ops ops w = (Ret tt, w')
     /\ (length (messages (self w')) <= 1)%nat)
  /\ (forall m, messages (self (snd (raw_to_text (Some m) w))) = [m])
  /\ (forall w1 x m,
        messages (self w1) = [x] ->
        messages (self (snd (raw_to_text (Some m) w1))) = [x +:+ " " +:+ m]).
Proof.
  intros H. split; [|split].
  - apply run_ops_invariant. rewrite H. simpl. lia.
  - intros m. rewrite (raw_to_text_first m w H). reflexivity.
  - intros w1 x m H1. rewrite (raw_to_text_next m [] x w1 H1). reflexivity.
Qed.

Lemma utterance_buffer_at_most_one_witness :
  exists w',
    run_ops [Append (Some "a"); Append None; Append (Some "b");
             ReadAndClear 7; ReadAndClear 8; Append (Some "c")] asr_empty
    = (Ret tt, w')
    /\ (length (messages (self w')) <= 1)%nat.
Proof.
  exact (proj1 (utterance_buffer_at_most_one _ asr_empty eq_refl)).
Defined.

End LocalASRFacts.

(** ** The synthesis chain ElevenLabs -> Piper *)

Module ElevenLabsFacts.
Import Py World ElevenLabs WorldFacts.

Ltac py_unfold :=
  unfold tts, logging, bind, ret, raise, try_except, outcome,
    get_self, set_self, emit in *.

Ltac count_events :=
  repeat (rewrite count_cons || rewrite count_app);
  repeat match goal with
         | H : all_logs ?l |- context [count ?p ?l] =>
             rewrite (count_logs p l (fun _ _ => eq_refl) H)
         end.

(** [_synthesize_piper] never raises.  It returns the audio of the
    subprocess, runs the subprocess once, and leaves the file system as it
    found it exactly on the outcomes of [cleans_up]; on the others the text
    file and the audio file stay. *)
Lemma synthesize_piper_spec text env w :
  let t := fresh (dom (fs w)) in
  let a := fresh (dom (<[t := encode text]> (fs w))) in
  exists cmd logs,
    _synthesize_piper text env w =
    (Ret (piper_audio (piper env)),
     mkWorld (self w)
       (if cleans_up (piper env) then fs w
        else <[a := written_content (piper env)]>
               (<[t := encode text]> (fs w)))
       (trace w ++ Exec cmd (Some text) :: logs))
    /\ all_logs logs.
Proof.
  intros t a.
  destruct (fresh_twice (fs w) (encode text)) as [Hne Ha].
  pose proof (fresh_absent (fs w)) as Ht.
  fold t in Hne, Ha, Ht. fold a in Hne, Ha.
  unfold _synthesize_piper, NamedTemporaryFile, write_file, read_file, unlink.
  py_unfold. cbn [self fs trace]. fold t. fold a.
  destruct (piper env) as [e|rc written stderr];
    cbn [piper_audio cleans_up written_content].
  - cbn. eexists _, _. rewrite <- !app_assoc. split; reflexivity.
  - destruct written as [b|], (rc =? 0)%Z, stderr as [msg|e]; cbn.
    all: repeat (lookup_step; cbn).
    all: rewrite ?insert_insert_eq, ?delete_two_temps by assumption.
    all: eexists _, _; rewrite <- ?app_assoc; split; reflexivity.
Qed.

Lemma synthesize_piper_result text env w :
  fst (_synthesize_piper text env w) = Ret (piper_audio (piper env)).
Proof.
  destruct (synthesize_piper_spec text env w) as (cmd & logs & H & _).
  now rewrite H.
Qed.

(** The paths on which the temporary files are removed... *)
Lemma synthesize_piper_cleans_up text env w :
  cleans_up (piper env) = true ->
  fs (snd (_synthesize_piper text env w)) = fs w.
Proof.
  intros Hc.
  destruct (synthesize_piper_spec text env w) as (cmd & logs & H & _).
  rewrite H. cbn [snd fs]. now rewrite Hc.
Qed.

(** ... and the path on which they are not: when the subprocess cannot be
    run to its end, both files are still there after the call. *)
Lemma synthesize_piper_leaves_files text env w e :
  piper env = NotCompleted e ->
  let t := fresh (dom (fs w)) in
  let a := fresh (dom (<[t := encode text]> (fs w))) in
  let f' := fs (snd (_synthesize_piper text env w)) in
  fs w !! t = None /\ fs w !! a = None
  /\ f' !! t = Some (encode text) /\ f' !! a = Some [].
Proof.
  intros He t a f'. subst f'.
  destruct (fresh_twice (fs w) (encode text)) as [Hne Ha].
  pose proof (fresh_absent (fs w)) as Ht.
  fold t in Hne, Ha, Ht. fold a in Hne, Ha.
  destruct (synthesize_piper_spec text env w) as (cmd & logs & H & _).
  rewrite H. cbn [snd fs]. rewrite He. cbn [cleans_up written_content].
  fold t. fold a.
  repeat split; auto.
  - rewrite lookup_insert_ne by congruence. apply lookup_insert_eq.
  - apply lookup_insert_eq.
Qed.

Lemma elevenlabs_play_audio_spec audio env w :
  exists f' logs,
    _play_audio audio env w =
    (Ret tt, mkWorld (self w) f' (trace w ++ Playback audio :: logs))
    /\ all_logs logs.
Proof.
  pose proof (fresh_absent (fs w)) as Ht.
  unfold _play_audio, NamedTemporaryFile, unlink.
  py_unfold. cbn [self fs trace].
  destruct (playback env) as [[]|e]; cbn.
  - rewrite lookup_insert_eq. cbn. eexists _, _.
    split; reflexivity.
  - eexists _, _. rewrite <- !app_assoc.
    split; reflexivity.
Qed.

(** The primary provider answers with a status other than 200: one HTTP
    request, then one run of the secondary provider, whose audio is the
    result. *)
Lemma synthesize_elevenlabs_fallback text env w status body error_text :
  http env = HttpResponse status body error_text ->
  status <> 200%Z ->
  exists o' f' url logs1 cmd logs2,
    _synthesize_elevenlabs text env w =
    (Ret (piper_audio (piper env)),
     mkWorld o' f'
       (trace w ++ HttpPost url text :: logs1 ++ Exec cmd (Some text) :: logs2))
    /\ use_elevenlabs o' = use_elevenlabs (self w)
    /\ all_logs logs1 /\ all_logs logs2.
Proof.
  intros Hh Hs. apply Z.eqb_neq in Hs.
  unfold _synthesize_elevenlabs, _get_session.
  unfold try_except at 1, bind at 1 2 3 4, get_self at 1 2, emit at 1.
  rewrite Hh, Hs. cbn [self fs trace].
  assert (Hsess : exists o',
    (match session (self w) with
     | OpenSession => ret tt
     | _ => set_self (set_session OpenSession (self w))
     end) w = (Ret tt, mkWorld o' (fs w) (trace w))
    /\ use_elevenlabs o' = use_elevenlabs (self w)).
  { destruct w as [o f tr]; cbn.
    destruct (session o); cbn; eexists; split; reflexivity. }
  destruct Hsess as (o' & Hsess & Huse). rewrite Hsess. cbn [self fs trace].
  destruct error_text as [msg|e]; py_unfold; cbn [self fs trace].
  all: match goal with |- context [_synthesize_piper ?t ?e ?w1] =>
         destruct (synthesize_piper_spec t e w1)
           as (cmd & logs & H & Hl) end.
  all: rewrite H; cbn [self fs trace]; rewrite <- !app_assoc.
  all: eexists _, _, _, [_; _], _, _; split; [reflexivity|].
  all: repeat split; [exact Huse | exact Hl].
Qed.

Lemma speak_fallback_spec text env w status body error_text :
  use_elevenlabs (self w) = true ->
  http env = HttpResponse status body error_text ->
  status <> 200%Z ->
  exists w' evs,
    speak text env w
    = (Ret (opt_truthy bytes_truthy (piper_audio (piper env))), w')
    /\ trace w' = trace w ++ evs
    /\ count is_piper_synthesis evs = 1%nat
    /\ count is_playback evs
       = (if opt_truthy bytes_truthy (piper_audio (piper env))
          then 1%nat else 0%nat).
Proof.
  intros Huse Hh Hs.
  destruct (synthesize_elevenlabs_fallback text env w status body error_text
              Hh Hs) as (o' & f' & url & logs1 & cmd & logs2 & H & _ & L1 & L2).
  unfold speak, synthesize.
  unfold try_except, bind at 1 2, get_self. rewrite Huse, H. clear H.
  destruct (piper_audio (piper env)) as [[|b audio]|];
    cbn [negb bytes_truthy opt_truthy ret].
  - eexists _, _.
    split; [reflexivity|]. split; [reflexivity|].
    count_events. split; reflexivity.
  - unfold bind.
    match goal with |- context [_play_audio ?a env ?w1] =>
      destruct (elevenlabs_play_audio_spec a env w1)
        as (f2 & logs3 & H3 & L3) end.
    rewrite H3. cbn [self fs trace].
    eexists _, _.
    split; [reflexivity|]. rewrite <- app_assoc. split; [reflexivity|].
    count_events. split; reflexivity.
  - eexists _, _.
    split; [reflexivity|]. split; [reflexivity|].
    count_events. split; reflexivity.
Qed.

(** C3 (as amended): with a credential and an HTTP status other than 200,
    [speak] runs the Piper synthesis exactly once and answers by what the
    synthesis returned, not by the playback.  [audio] is what
    [_synthesize_piper] returns for this text and environment; [speak]
    returns true exactly when [audio] is a non-empty audio; the audio is
    handed to the playback once in that case and never otherwise; and the
    result is the same whatever the outcome of the playback, be it an
    exception. *)
Theorem speak_falls_back_on_http_error text env w status body error_text :
  use_elevenlabs (self w) = true ->
  http env = HttpResponse status body error_text ->
  status <> 200%Z ->
  exists audio w' evs,
    (forall w0, fst (_synthesize_piper text env w0) = Ret audio)
    /\ speak text env w = (Ret (opt_truthy bytes_truthy audio), w')
    /\ trace w' = trace w ++ evs
    /\ count is_piper_synthesis evs = 1%nat
    /\ count is_playback evs
       = (if opt_truthy bytes_truthy audio then 1%nat else 0%nat)
    /\ (forall played : result unit,
          fst (speak text (mkEnv (http env) (piper env) played) w)
          = Ret (opt_truthy bytes_truthy audio)).
Proof.
  intros Huse Hh Hs.
  exists (piper_audio (piper env)).
  destruct (speak_fallback_spec text env w status body error_text Huse Hh Hs)
    as (w' & evs & H & T & A & B).
  exists w', evs.
  split; [apply synthesize_piper_result|].
  do 4 (split; [assumption|]).
  intros played.
  destruct (speak_fallback_spec text (mkEnv (http env) (piper env) played) w
              status body error_text Huse Hh Hs) as (w2 & evs2 & H2 & _).
  rewrite H2. reflexivity.
Qed.

Lemma speak_falls_back_on_http_error_witness :
  exists audio w' evs,
    (forall w0, fst (_synthesize_piper "hi" env_500_piper_ok w0) = Ret audio)
    /\ speak "hi" env_500_piper_ok with_key
       = (Ret (opt_truthy bytes_truthy audio), w')
    /\ trace w' = trace with_key ++ evs
    /\ count is_piper_synthesis evs = 1%nat
    /\ count is_playback evs
       = (if opt_truthy bytes_truthy audio then 1%nat else 0%nat)
    /\ (forall played : result unit,
          fst (speak "hi" (mkEnv (http env_500_piper_ok)
                                 (piper env_500_piper_ok) played) with_key)
          = Ret (opt_truthy bytes_truthy audio)).
Proof.
  apply (speak_falls_back_on_http_error "hi" env_500_piper_ok with_key 500
           (Ret []) (Ret "Internal Server Error")).
  - reflexivity.
  - reflexivity.
  - discriminate.
Defined.

(** C3 (as stated) fails on the playback: the connector holds a key, the
    service answers 500, Piper yields four bytes of audio and the playback
    of these bytes raises.  Nothing is played, the error is logged and the
    temporary audio file of the playback stays, yet [speak] returns
    true. *)
Lemma speak_true_though_playback_fails :
  use_elevenlabs (self with_key) = true
  /\ http env_500_piper_ok
     = HttpResponse 500 (Ret []) (Ret "Internal Server Error")
  /\ fst (_synthesize_piper "hi" env_500_piper_ok with_key)
     = Ret (Some [x52; x49; x46; x46]%byte)
  /\ playback env_500_piper_ok = Raise LibsndfileError
  /\ fst (speak "hi" env_500_piper_ok with_key) = Ret true
  /\ last (trace (snd (speak "hi" env_500_piper_ok with_key)))
     = Some (Log ERROR ("Error playing audio: " +:+ exn_str LibsndfileError))
  /\ fs (snd (speak "hi" env_500_piper_ok with_key))
     = {[ fresh (dom (fs with_key)) := [x52; x49; x46; x46]%byte ]}.
Proof. vm_compute. repeat split; reflexivity. Qed.

(** *** Without a credential *)






End ElevenLabsFacts.

(** ** The offline connector *)

Module PiperFacts.
Import Py World Piper WorldFacts.

Ltac py_unfold :=
  unfold tts, logging, bind, ret, raise, try_except, outcome,
    get_self, set_self, emit in *.

(** *** Piper is not available *)

Lemma connect_unavailable sentence env w :
  piper_available (self w) = false ->
  connect sentence env w =
  (Ret tt, mkWorld (self w) (fs w) (trace w ++ mock_log sentence)).
Proof.
  intros H. unfold connect, mock_log. py_unfold. cbn [self fs trace].
  rewrite H. cbn. now rewrite <- app_assoc.
Qed.

Lemma connect_all_unavailable calls : forall w,
  piper_available (self w) = false ->
  connect_all calls w =
  (Ret tt, mkWorld (self w) (fs w) (trace w ++ mock_logs calls)).
Proof.
  induction calls as [|[sentence env] calls IH]; intros w H; simpl.
  - unfold ret. rewrite app_nil_r. now destruct w.
  - unfold bind. rewrite (connect_unavailable sentence env w H).
    rewrite IH by exact H. cbn [self fs trace].
    now rewrite <- app_assoc.
Qed.

Lemma init_piper_available cfg probe1 probe2 w0 w :
  __init__ cfg probe1 probe2 w0 = (Ret tt, w) ->
  fst (_check_piper_availability probe1 probe2 w0)
  = Ret (piper_available (self w)).
Proof.
  unfold __init__. unfold bind at 1.
  destruct (_check_piper_availability probe1 probe2 w0) as [[avail|e] w1];
    [|discriminate].
  py_unfold. cbn [self fs trace].
  destruct avail; cbn; intros [= <-]; reflexivity.
Qed.

(** C10: when the availability probe fails at construction, [connect]
    only logs.  If [__init__] returns and its probe answered false, then
    [piper_available] is false and every sequence of [connect] calls
    returns normally, leaves the connector and the file system as they
    were, and adds to the trace the two log lines of each sentence and
    nothing else: no synthesis subprocess, no audio player. *)
Theorem unavailable_piper_only_logs cfg probe1 probe2 w0 w calls :
  __init__ cfg probe1 probe2 w0 = (Ret tt, w) ->
  fst (_check_piper_availability probe1 probe2 w0) = Ret false ->
  piper_available (self w) = false
  /\ connect_all calls w =
     (Ret tt, mkWorld (self w) (fs w) (trace w ++ mock_logs calls)).
Proof.
  intros Hinit Hprobe.
  rewrite (init_piper_available _ _ _ _ _ Hinit) in Hprobe.
  injection Hprobe as Hav. split; [exact Hav|].
  now apply connect_all_unavailable.
Qed.

Lemma unavailable_piper_only_logs_witness :
  piper_available (self piper_missing) = false
  /\ connect_all [("hello", env_ok); ("world", env_timeout)] piper_missing =
     (Ret tt,
      mkWorld (self piper_missing) (fs piper_missing)
        (trace piper_missing
         ++ mock_logs [("hello", env_ok); ("world", env_timeout)])).
Proof.
  apply (unavailable_piper_only_logs no_config (Raise FileNotFoundError)
           (Ret 1%Z) piper0 piper_missing).
  - reflexivity.
  - reflexivity.
Defined.

(** *** Piper is available: where the audio file goes *)

Lemma try_players_spec players p env : forall w,
  exists r evs,
    try_players players p env w =
    (r, mkWorld (self w) (fs w) (trace w ++ evs)).
Proof.
  induction players as [|player players IH]; intros w; simpl.
  - py_unfold. cbn. eexists _, _. reflexivity.
  - py_unfold. cbn [self fs trace].
    destruct (player_run env player) as [rc|e]; cbn.
    + destruct (rc =? 0)%Z; cbn.
      * eexists _, _. rewrite <- app_assoc. reflexivity.
      * match goal with |- context [try_players players p env ?w1] =>
          destruct (IH w1) as (r & evs & H) end.
        rewrite H. cbn [self fs trace]. rewrite <- app_assoc.
        eexists _, _. reflexivity.
    + destruct (is_FileNotFoundError e || is_TimeoutExpired e); cbn.
      * match goal with |- context [try_players players p env ?w1] =>
          destruct (IH w1) as (r & evs & H) end.
        rewrite H. cbn [self fs trace]. rewrite <- app_assoc.
        eexists _, _. reflexivity.
      * eexists _, _. reflexivity.
Qed.

Lemma piper_play_audio_spec p env w :
  exists b evs,
    _play_audio p env w = (Ret b, mkWorld (self w) (fs w) (trace w ++ evs)).
Proof.
  unfold _play_audio, try_except.
  destruct (try_players_spec ["aplay"; "paplay"; "play"; "ffplay"] p env w)
    as ([b|e] & evs & H); rewrite H.
  - eexists _, _. reflexivity.
  - py_unfold. cbn. rewrite <- app_assoc. eexists _, _. reflexivity.
Qed.

Lemma synthesize_with_piper_spec text env w :
  let p := fresh (dom (fs w)) in
  exists evs,
    _synthesize_with_piper text env w =
    (Ret (if succeeded (synthesis env) then Some p else None),
     mkWorld (self w)
       (if completed (synthesis env) && negb (succeeded (synthesis env))
        then fs w
        else <[p := written_content (synthesis env)]> (fs w))
       (trace w ++ evs)).
Proof.
  intros p. pose proof (fresh_absent (fs w)) as Hp. fold p in Hp.
  unfold _synthesize_with_piper, NamedTemporaryFile, write_file,
    exists_, unlink.
  py_unfold. cbn [self fs trace]. fold p.
  destruct (synthesis env) as [e|rc written [msg|e]];
    cbn [completed succeeded written_content andb negb].
  - destruct (is_TimeoutExpired e); cbn; rewrite <- app_assoc;
      eexists; reflexivity.
  - destruct written as [b|], (rc =? 0)%Z; cbn.
    all: repeat (lookup_step; cbn).
    all: rewrite ?insert_insert_eq, ?delete_temp by exact Hp.
    all: rewrite <- ?app_assoc; eexists; reflexivity.
  - destruct written as [b|], (is_TimeoutExpired e); cbn.
    all: rewrite ?insert_insert_eq.
    all: rewrite <- ?app_assoc; eexists; reflexivity.
Qed.

(** [connect] removes the temporary audio file when the subprocess ran to
    its end (after the playback when it exited with 0, at once when it
    exited with another code), and leaves it when the subprocess was not
    completed: time out, missing executable, undecodable output. *)
Lemma connect_file_system sentence env w :
  piper_available (self w) = true ->
  fs (snd (connect sentence env w)) =
  if completed (synthesis env) then fs w
  else <[fresh (dom (fs w)) := written_content (synthesis env)]> (fs w).
Proof.
  intros Hav. pose proof (fresh_absent (fs w)) as Hp.
  unfold connect.
  unfold bind at 1 2, logging at 1, emit at 1, get_self at 1.
  cbn [self fs trace]. rewrite Hav. cbn [negb].
  unfold bind at 1.
  match goal with |- context [_synthesize_with_piper sentence env ?w1] =>
    destruct (synthesize_with_piper_spec sentence env w1) as (evs & H) end.
  rewrite H. clear H. cbn [self fs trace].
  destruct (synthesis env) as [e|rc written [msg|e]];
    cbn [completed succeeded written_content andb negb]; try reflexivity.
  destruct (rc =? 0)%Z eqn:Hrc; [|reflexivity]. cbn [andb negb].
  unfold bind at 1.
  match goal with |- context [_play_audio ?p env ?w1] =>
    destruct (piper_play_audio_spec p env w1) as (b & evs2 & H) end.
  rewrite H. clear H. cbn [self fs trace].
  unfold bind at 1, try_except, unlink. cbn [self fs trace].
  rewrite lookup_insert_eq.
  destruct b; cbn; now apply delete_temp.
Qed.

(** C1: the code at the inputs where the claim breaks.  With an empty
    file system, [_synthesize_piper] of the ElevenLabs connector on a
    missing Piper executable returns None and leaves both the text file and
    the audio file; [connect] of the Piper connector on a synthesis that
    times out leaves the audio file. *)
Theorem temporary_files_left_behind :
  fs ElevenLabs.without_key = ∅
  /\ ElevenLabs._synthesize_piper "hi" ElevenLabs.env_500_piper_missing ElevenLabs.without_key
     = (Ret None,
        mkWorld (self ElevenLabs.without_key)
          {[ 0%nat := ElevenLabs.encode "hi"; 1%nat := [] ]}
          (trace ElevenLabs.without_key
           ++ [Exec ["piper"; "--model"; "en_US-lessac-medium";
                     "--output_file"; "/tmp/tmp1.wav"] (Some "hi");
               Log ERROR "Piper synthesis error: FileNotFoundError"]))
  /\ fs piper_ready = ∅
  /\ fs (snd (connect "hi" env_timeout piper_ready)) = {[ 0%nat := [] ]}.
Proof. vm_compute. repeat split; reflexivity. Qed.

End PiperFacts.

(** * Further properties *)

(** ** Strings *)

Module PyMore.
Import Py PyFacts.

Lemma lstrip_head s :
  lstrip s = "" \/ exists c r, lstrip s = String c r /\ is_space c = false.
Proof.
  induction s as [|c s IH]; simpl; [now left|].
  destruct (is_space c) eqn:Hc; [exact IH|]. right. eauto.
Qed.

Lemma rstrip_keeps_head c s :
  is_space c = false -> exists r, rstrip (String c s) = String c r.
Proof.
  intros Hc. simpl. destruct (rstrip s); rewrite ?Hc; eauto.
Qed.

Lemma rstrip_idempotent s : rstrip (rstrip s) = rstrip s.
Proof.
  induction s as [|c s IH]; simpl; [reflexivity|].
  destruct (rstrip s) as [|c' r] eqn:Hr.
  - destruct (is_space c) eqn:Hc; simpl; [reflexivity|]. now rewrite Hc.
  - simpl in *. rewrite IH. reflexivity.
Qed.

Lemma strip_idempotent s : strip (strip s) = strip s.
Proof.
  unfold strip.
  destruct (lstrip_head s) as [->|(c & r & -> & Hc)]; [reflexivity|].
  destruct (rstrip_keeps_head c r Hc) as [r' Hr]. rewrite Hr.
  simpl lstrip. rewrite Hc. rewrite <- Hr. apply rstrip_idempotent.
Qed.

End PyMore.

(** ** The capture loop and the aggregator, continued *)

Module LocalASRMore.
Import Py World Float32 LocalASR PyFacts PyMore Float32Facts WorldFacts
  LocalASRFacts.

Ltac py_unfold :=
  unfold asr, update, sleep, logging, bind, ret, raise, try_except, outcome,
    get_self, set_self, emit in *.

(** *** The gate on chunks that cannot hold speech *)

(** X1: the gate never raises and touches nothing but the log.  For every
    chunk, every threshold and either NumPy, [_has_speech] returns a
    boolean and leaves the object and the file system as they were; the
    answer is false for the empty chunk (the mean of no sample is a NaN,
    which is above no threshold) and for a chunk whose size is not a
    multiple of four bytes (the decoding error is caught). *)
Theorem has_speech_never_raises audio_data env w :
  exists b evs,
    _has_speech audio_data env w
    = (Ret b, mkWorld (self w) (fs w) (trace w ++ evs))
    /\ all_logs evs
    /\ (audio_data = [] -> b = false)
    /\ ((length audio_data mod 4 <> 0)%nat -> b = false).
Proof.
  unfold _has_speech, frombuffer. py_unfold. destruct w as [o f tr].
  destruct (length audio_data mod 4 =? 0)%nat eqn:Hlen; simpl.
  - eexists _, []. rewrite app_nil_r. split; [reflexivity|].
    split; [reflexivity|]. split.
    + intros ->. apply greater_nan.
    + apply Nat.eqb_eq in Hlen. intros Hne. now destruct Hne.
  - eexists _, _. split; [reflexivity|]. split; [reflexivity|]. auto.
Qed.

(** *** Polling *)

Lemma poll_spec w :
  _poll w =
  (Ret (head (message_buffer (self w))),
   mkWorld (set_message_buffer (tail (message_buffer (self w))) (self w))
           (fs w) (trace w ++ [Sleep 100])).
Proof.
  unfold _poll. py_unfold. cbn [self fs trace].
  destruct (self w) as [ms d i t q e th c m s] eqn:Ho. cbn.
  destruct q; reflexivity.
Qed.

Lemma poll_n_spec n : forall w,
  exists evs,
    poll_n n w =
    (Ret (map Some (take n (message_buffer (self w)))
          ++ repeat None (n - length (message_buffer (self w)))),
     mkWorld (set_message_buffer (drop n (message_buffer (self w))) (self w))
             (fs w) (trace w ++ evs))
    /\ delays evs = repeat 100%Z n.
Proof.
  induction n as [|n IH]; intros w; simpl.
  - exists []. unfold ret. rewrite app_nil_r, drop_0.
    destruct w as [[] f tr]; split; reflexivity.
  - unfold bind. rewrite poll_spec.
    match goal with |- context [poll_n n ?w1] =>
      destruct (IH w1) as (evs & H & D) end.
    rewrite H. unfold ret. cbn [self fs trace].
    destruct (self w) as [ms d i t q e th c m s]. cbn.
    exists (Sleep 100 :: evs).
    destruct q as [|x q]; cbn.
    + rewrite take_nil, drop_nil, Nat.sub_0_r. cbn.
      rewrite <- app_assoc. split; [reflexivity|].
      unfold delays in *. cbn. now rewrite D.
    + rewrite <- app_assoc. split; [reflexivity|].
      unfold delays in *. cbn. now rewrite D.
Qed.

(** X2: [_poll] empties the message buffer first in, first out.  Polling
    as many times as the buffer holds messages, and [k] times more, returns
    the messages in the order in which they were put, then [k] times None;
    the buffer is empty afterwards, the utterance buffer is untouched, and
    every poll sleeps 0.1 second. *)
Theorem poll_is_fifo k w :
  let q := message_buffer (self w) in
  exists o' evs,
    poll_n (length q + k) w =
    (Ret (map Some q ++ repeat None k),
     mkWorld o' (fs w) (trace w ++ evs))
    /\ message_buffer o' = []
    /\ messages o' = messages (self w)
    /\ delays evs = repeat 100%Z (length q + k).
Proof.
  intros q. destruct (poll_n_spec (length q + k) w) as (evs & H & D).
  fold q in H. eexists _, evs. split; [|split; [|split]].
  - rewrite H. rewrite take_ge by lia.
    replace (length q + k - length q)%nat with k by lia. reflexivity.
  - destruct (self w); cbn. apply drop_ge. cbn in q. subst q. lia.
  - now destruct (self w).
  - exact D.
Qed.


(** *** What the loop puts into the queue *)

Lemma accepted_clean env o m :
  accepted env o = Some m -> m <> "" /\ strip m = m.
Proof.
  unfold accepted. destruct (device env) as [d|]; [|discriminate].
  destruct ((0 <? length d)%nat && speech d env o); [|discriminate].
  destruct (transcript d env o) as [[t|]|]; try discriminate.
  destruct (all_space t) eqn:Hs; [discriminate|].
  intros [= <-]. split; [now apply strip_nonempty | apply strip_idempotent].
Qed.

Lemma cycle_outcome_queue env o :
  exists new,
    fst (cycle_outcome env o) = set_message_buffer (message_buffer o ++ new) o
    /\ (length new <= 1)%nat
    /\ Forall (fun m => m <> "" /\ strip m = m) new.
Proof.
  unfold cycle_outcome.
  destruct (accepted env o) as [m|] eqn:Ha.
  - destruct (put_failure env); cbn.
    + exists []. rewrite app_nil_r. destruct o; cbn. auto.
    + exists [m]. repeat split; auto. constructor; [|constructor].
      now apply accepted_clean in Ha.
  - exists []. rewrite app_nil_r. destruct o; cbn. auto.
Qed.

(** X3: the capture loop only appends to the message buffer.  Whatever
    happens during the cycles, the object after the loop is the object
    before with messages added at the end of [message_buffer]: at most one
    for each cycle, each of them non-empty and without white space at
    either end; no other attribute changes.  Every file that was there
    before the loop is there after it, with the same content, and the loop
    leaves at most one more file for each cycle (the temporary file of a
    hosted transcription that did not reach its end). *)
Theorem loop_only_appends_clean_messages envs : forall w,
  exists o' f' evs new,
    _audio_processing_loop envs w =
    (Ret tt, mkWorld o' f' (trace w ++ evs))
    /\ o' = set_message_buffer (message_buffer (self w) ++ new) (self w)
    /\ (length new <= length envs)%nat
    /\ Forall (fun m => m <> "" /\ strip m = m) new
    /\ fs w ⊆ f'
    /\ (size f' <= size (fs w) + length envs)%nat.
Proof.
  induction envs as [|env envs IH]; intros w; simpl.
  - exists (self w), (fs w), [], []. unfold ret. rewrite !app_nil_r.
    destruct w as [[] f tr]; cbn. repeat split; auto. lia.
  - destruct (cycle_spec env w) as (e1 & H1 & _).
    unfold bind. rewrite H1.
    destruct (cycle_outcome_queue env (self w)) as (n1 & Hq & L1 & F1).
    rewrite Hq.
    destruct (files_after_grows env (self w) (fs w)) as [G1 S1].
    match goal with |- context [_audio_processing_loop envs ?w1] =>
      destruct (IH w1) as (o' & f' & e2 & n2 & H2 & Ho & L2 & F2 & G2 & S2) end.
    rewrite H2. cbn [self fs trace] in *.
    exists o', f', (e1 ++ e2), (n1 ++ n2). rewrite <- app_assoc.
    split; [reflexivity|]. split; [|split; [|split; [|split]]].
    + rewrite Ho. destruct (self w); cbn. now rewrite <- app_assoc.
    + rewrite length_app. lia.
    + now apply Forall_app.
    + etransitivity; eassumption.
    + lia.
Qed.

(** *** Without a usable engine *)

Lemma transcript_without_engine d env o :
  openai_client o = false -> faster_whisper_model o = false ->
  transcript d env o = Ret None.
Proof.
  intros Hc Hm. unfold transcript, _transcribe_audio. py_unfold. cbn.
  rewrite Hc, Hm, !andb_false_r. reflexivity.
Qed.

(** X4: without a usable engine nothing is ever transcribed.  When the
    object has neither a client of the hosted service nor a local model,
    every run of the loop leaves the object as it was, whatever the
    microphone records and whatever the engines would answer, and every
    cycle takes the delay of 0.1 second. *)
Theorem loop_without_engine_enqueues_nothing envs : forall w,
  openai_client (self w) = false ->
  faster_whisper_model (self w) = false ->
  exists evs,
    _audio_processing_loop envs w =
    (Ret tt, mkWorld (self w) (fs w) (trace w ++ evs))
    /\ delays evs = repeat 100%Z (length envs).
Proof.
  induction envs as [|env envs IH]; intros w Hc Hm; simpl.
  - exists []. unfold ret. rewrite app_nil_r. now destruct w.
  - destruct (cycle_spec env w) as (e1 & H1 & D1).
    destruct (cycle_body_spec env w) as (e0 & H0 & _).
    rewrite H0 in D1. cbn [fst] in D1.
    assert (Ha : accepted env (self w) = None).
    { unfold accepted. destruct (device env); [|reflexivity].
      rewrite transcript_without_engine by assumption.
      now destruct (_ && _). }
    unfold body_result in D1. unfold cycle_outcome in H1.
    rewrite Ha in D1, H1. cbn in H1.
    rewrite files_after_not_hosted in H1
      by (unfold hosted; rewrite Hc; apply andb_false_r).
    unfold bind. rewrite H1.
    match goal with |- context [_audio_processing_loop envs ?w1] =>
      destruct (IH w1 Hc Hm) as (e2 & H2 & D2) end.
    rewrite H2. cbn [self fs trace]. exists (e1 ++ e2).
    rewrite <- app_assoc. split; [reflexivity|].
    rewrite delays_app, D1, D2. reflexivity.
Qed.

(** X5: the fall-back of the constructor yields no engine.  When the
    configuration asks for faster-whisper and the package cannot be
    imported, [__init__] renames the engine to openai-whisper but the
    client of the hosted service was decided before and stays None, also
    when a key is present: the dispatcher then returns None for every
    chunk. *)
Theorem failed_whisper_import_leaves_no_engine cfg api_key :
  cfg_engine cfg = Some "faster-whisper" ->
  let o := __init__ cfg api_key false in
  engine o = "openai-whisper"
  /\ openai_client o = false
  /\ faster_whisper_model o = false
  /\ forall d env, transcript d env o = Ret None.
Proof.
  intros He o. subst o. unfold __init__. rewrite He. cbn.
  do 3 (split; [reflexivity|]).
  intros d env. reflexivity.
Qed.


(** *** The aggregator on any buffer *)

Lemma snoc_cases {A} (l : list A) : l = [] \/ exists l' x, l = l' ++ [x].
Proof. destruct l using rev_ind; [now left | right; eauto]. Qed.

Lemma string_app_assoc (a b c : string) : (a +:+ b) +:+ c = a +:+ b +:+ c.
Proof.
  induction a as [|ch a IH]; [reflexivity|].
  change (String ch ((a +:+ b) +:+ c) = String ch (a +:+ b +:+ c)).
  now rewrite IH.
Qed.

Lemma join_merge x m ms :
  join " " ((x +:+ " " +:+ m) :: ms) = join " " (x :: m :: ms).
Proof.
  unfold join. destruct ms as [|y ms]; cbn [String.concat]; [reflexivity|].
  now rewrite !string_app_assoc.
Qed.

Lemma append_all_on_entry ms : forall x w,
  messages (self w) = [x] ->
  append_all ms w =
  (Ret tt,
   mkWorld (set_messages [join " " (x :: ms)] (self w)) (fs w) (trace w)).
Proof.
  unfold append_all.
  induction ms as [|m ms IH]; intros x w H; simpl.
  - unfold ret. destruct w as [[] f tr]; cbn in *. now subst.
  - unfold bind. rewrite (raw_to_text_next m [] x w H). cbn [app].
    rewrite (IH (x +:+ " " +:+ m)) by reflexivity.
    cbn [self fs trace]. rewrite join_merge. now destruct (self w).
Qed.

(** X6: appends accumulate into one utterance.  From an empty buffer,
    appending the texts of a non-empty list in order leaves one entry, the
    texts joined with single spaces; reading it returns the block of that
    text and empties the buffer. *)
Theorem appends_then_read_joins m ms now w :
  messages (self w) = [] ->
  exists w1,
    append_all (m :: ms) w = (Ret tt, w1)
    /\ messages (self w1) = [join " " (m :: ms)]
    /\ fst (formatted_latest_buffer now w1)
       = Ret (Some (block (descriptor_for_LLM (self w)) (join " " (m :: ms))))
    /\ messages (self (snd (formatted_latest_buffer now w1))) = [].
Proof.
  intros H. unfold append_all. cbn [map run_ops run_op].
  unfold bind. rewrite (raw_to_text_first m w H).
  fold (append_all ms). rewrite (append_all_on_entry ms m) by reflexivity.
  eexists. split; [reflexivity|]. cbn [self fs trace].
  split; [now destruct (self w)|].
  match goal with |- context [formatted_latest_buffer now ?w1] =>
    destruct (formatted_nonempty now [] (join " " (m :: ms)) w1)
      as (o' & H3 & Hm & _); [now destruct (self w)|] end.
  rewrite H3. cbn [fst snd self]. split; [|exact Hm].
  now destruct (self w).
Qed.


Lemma run_op_general o w :
  exists o' recs,
    run_op o w = (Ret tt, mkWorld o' (fs w) (trace w))
    /\ descriptor_for_LLM o' = descriptor_for_LLM (self w)
    /\ (skip_sleep (self w) = true -> skip_sleep o' = true)
    /\ io_inputs o' = io_inputs (self w) ++ recs
    /\ io_mode_transitions o'
       = io_mode_transitions (self w) ++ map record_text recs
    /\ Forall (fun r => record_label r = descriptor_for_LLM (self w)) recs
    /\ (length recs <= if is_read o then 1 else 0)%nat.
Proof.
  destruct o as [[m|]|now]; cbn [run_op is_read].
  - destruct (snoc_cases (messages (self w))) as [Hm|(l & x & Hm)].
    + rewrite (raw_to_text_first m w Hm). eexists _, [].
      split; [reflexivity|]. rewrite !app_nil_r.
      destruct (self w); cbn. auto 10.
    + rewrite (raw_to_text_next m l x w Hm). eexists _, [].
      split; [reflexivity|]. rewrite !app_nil_r.
      destruct (self w); cbn. auto 10.
  - rewrite raw_to_text_none. eexists _, [].
    split; [reflexivity|]. rewrite !app_nil_r.
    destruct (negb _); destruct (self w); cbn; auto 10.
  - unfold bind.
    destruct (snoc_cases (messages (self w))) as [Hm|(l & x & Hm)].
    + rewrite (formatted_empty now w Hm). unfold ret. exists (self w), [].
      split; [now destruct w|]. rewrite !app_nil_r. cbn. auto 10.
    + destruct (formatted_nonempty now l x w Hm) as (o' & H & _ & Hi & Ht).
      rewrite H. unfold ret. cbn [self fs trace].
      exists o', [(descriptor_for_LLM (self w), x, now)].
      split; [reflexivity|]. rewrite Hi, Ht. cbn.
      repeat split; auto.
      * revert H. unfold formatted_latest_buffer.
        unfold bind at 1, get_self at 1. rewrite Hm.
        replace (length (l ++ [x]) =? 0)%nat with false
          by (rewrite length_app; simpl; symmetry; apply Nat.eqb_neq; lia).
        unfold bind at 1. rewrite last_item_spec.
        unfold add_input, add_mode_transition_input. py_unfold. cbn.
        intros [= <-]. reflexivity.
      * revert H. unfold formatted_latest_buffer.
        unfold bind at 1, get_self at 1. rewrite Hm.
        replace (length (l ++ [x]) =? 0)%nat with false
          by (rewrite length_app; simpl; symmetry; apply Nat.eqb_neq; lia).
        unfold bind at 1. rewrite last_item_spec.
        unfold add_input, add_mode_transition_input. py_unfold. cbn.
        intros [= <-]. now destruct (self w).
Qed.

(** X7: every delivered utterance is logged once to both collaborators.
    Over any sequence of appends and reads, from any buffer, no operation
    raises; the input log and the mode transitions grow by the same texts
    in the same order, every record carries the label of the input kind,
    and there are at most as many new records as there are reads.  (The
    I/O provider is the recorder described with [add_input].) *)
Theorem reads_log_in_lockstep ops : forall w,
  exists w' recs,
    run_ops ops w = (Ret tt, w')
    /\ io_inputs (self w') = io_inputs (self w) ++ recs
    /\ io_mode_transitions (self w')
       = io_mode_transitions (self w) ++ map record_text recs
    /\ Forall (fun r => record_label r = descriptor_for_LLM (self w)) recs
    /\ (length recs <= length (filter (fun o => is_read o = true) ops))%nat.
Proof.
  induction ops as [|o ops IH]; intros w; simpl.
  - exists w, []. unfold ret. rewrite !app_nil_r. cbn. auto.
  - destruct (run_op_general o w)
      as (o1 & r1 & H1 & Hd & _ & Hi & Ht & Hl & Hn).
    unfold bind. rewrite H1.
    match goal with |- context [run_ops ops ?w1] =>
      destruct (IH w1) as (w' & r2 & H2 & Hi2 & Ht2 & Hl2 & Hn2) end.
    cbn [self] in *. exists w', (r1 ++ r2).
    split; [exact H2|]. rewrite Hi2, Ht2, Hi, Ht, map_app, <- !app_assoc.
    repeat split.
    + apply Forall_app. split; [exact Hl|]. now rewrite <- Hd.
    + rewrite length_app, filter_cons.
      destruct (is_read o); case_decide; try congruence; cbn; lia.
Qed.

(** X8: the 'do not idle' hint.  An append without text leaves the buffer
    as it is and raises the [skip_sleep] flag exactly when the buffer is
    not empty; no append and no read ever lowers the flag. *)
Theorem skip_sleep_hint ops : forall w,
  (let w1 := snd (raw_to_text None w) in
   messages (self w1) = messages (self w)
   /\ skip_sleep (self w1)
      = (skip_sleep (self w) || negb (length (messages (self w)) =? 0)%nat))
  /\ (skip_sleep (self w) = true ->
      skip_sleep (self (snd (run_ops ops w))) = true).
Proof.
  intros w. split.
  - rewrite raw_to_text_none. cbn [snd self].
    destruct (negb _); destruct (self w) as [? ? ? ? ? ? ? ? ? sk]; cbn;
      [now rewrite orb_true_r | now rewrite orb_false_r].
  - revert w. induction ops as [|o ops IH]; intros w Hs; simpl; [exact Hs|].
    destruct (run_op_general o w) as (o1 & r1 & H1 & _ & Hk & _).
    unfold bind. rewrite H1. apply IH. cbn. auto.
Qed.


Lemma has_speech_never_raises_witness :
  fst (_has_speech chunk_truncated env_numpy1 asr_empty) = Ret false
  /\ fst (_has_speech [] env_numpy2 asr_empty) = Ret false.
Proof.
  split.
  - destruct (has_speech_never_raises chunk_truncated env_numpy1 asr_empty)
      as (b & evs & H & _ & _ & Hm).
    rewrite H. cbn [fst]. f_equal. apply Hm. vm_compute. discriminate.
  - destruct (has_speech_never_raises [] env_numpy2 asr_empty)
      as (b & evs & H & _ & He & _).
    rewrite H. cbn [fst]. f_equal. apply He. reflexivity.
Defined.

Lemma loop_without_engine_enqueues_nothing_witness :
  exists evs,
    _audio_processing_loop [env_hello; env_device_fails; env_hello] asr_empty =
    (Ret tt, mkWorld (self asr_empty) (fs asr_empty) (trace asr_empty ++ evs))
    /\ delays evs = repeat 100%Z 3.
Proof.
  apply (loop_without_engine_enqueues_nothing
           [env_hello; env_device_fails; env_hello] asr_empty);
    reflexivity.
Defined.

Lemma failed_whisper_import_leaves_no_engine_witness :
  engine (self asr_fallen_back) = "openai-whisper"
  /\ openai_client (self asr_fallen_back) = false
  /\ faster_whisper_model (self asr_fallen_back) = false
  /\ forall d env, transcript d env (self asr_fallen_back) = Ret None.
Proof.
  apply (failed_whisper_import_leaves_no_engine
           (mkConfig (Some "faster-whisper") None) (Some "sk-test")).
  reflexivity.
Defined.

Lemma appends_then_read_joins_witness :
  exists w1,
    append_all ["turn"; "left"; "now"] asr_empty = (Ret tt, w1)
    /\ messages (self w1) = ["turn left now"]
    /\ fst (formatted_latest_buffer 7 w1)
       = Ret (Some (block "Voice" "turn left now"))
    /\ messages (self (snd (formatted_latest_buffer 7 w1))) = [].
Proof.
  apply (appends_then_read_joins "turn" ["left"; "now"] 7 asr_empty).
  reflexivity.
Defined.

Lemma skip_sleep_hint_witness :
  skip_sleep (self asr_hinted) = true
  /\ skip_sleep
       (self (snd (run_ops [ReadAndClear 1; Append (Some "b")] asr_hinted)))
     = true.
Proof.
  split; [reflexivity|].
  apply (proj2 (skip_sleep_hint [ReadAndClear 1; Append (Some "b")] asr_hinted)).
  reflexivity.
Defined.

(** *** The dispatcher on the hosted engine *)

Lemma hosted_text_none d env :
  hosted_text d env = None <->
  (length d mod 4 <> 0)%nat
  \/ (exists e partial, sf_write env = WriteFailed e partial)
  \/ openai_reply env = Ret ""
  \/ (exists e, openai_reply env = Raise e).
Proof.
  unfold hosted_text, frombuffer.
  destruct (length d mod 4 =? 0)%nat eqn:Hlen.
  - apply Nat.eqb_eq in Hlen.
    destruct (sf_write env) as [wav|e1 partial]; [|split; eauto].
    destruct (openai_reply env) as [[|c t]|e2]; cbn [str_truthy].
    + split; auto.
    + split; [discriminate|].
      intros [H|[(e & b & [=])|[[=]|(e & [=])]]]. now destruct H.
    + split; eauto.
  - apply Nat.eqb_neq in Hlen. split; auto.
Qed.

(** X18: what the dispatcher does on the hosted engine.  With the engine
    openai-whisper and a client, [_transcribe_audio] never raises, logs
    and changes nothing of the object.  It returns None exactly when the
    chunk is not made of whole samples, when the WAV file cannot be
    written, when the hosted service raises and when its reply is empty;
    a text that it returns has no white space at either end.  Its
    temporary file is removed exactly when the chunk was decoded, the file
    written and the service has replied.  Otherwise the file is left
    behind: empty when the chunk was not decoded, with what [sf.write]
    wrote when it failed, with the WAV encoding when the service
    raised. *)
Theorem dispatcher_on_hosted_engine d env w :
  engine (self w) = "openai-whisper" ->
  openai_client (self w) = true ->
  exists r evs,
    _transcribe_audio d env w
    = (Ret r, mkWorld (self w) (with_temp (wav_left d env) (fs w))
                      (trace w ++ evs))
    /\ all_logs evs
    /\ (r = None <->
        (length d mod 4 <> 0)%nat
        \/ (exists e partial, sf_write env = WriteFailed e partial)
        \/ openai_reply env = Ret ""
        \/ (exists e, openai_reply env = Raise e))
    /\ (forall t, r = Some t -> strip t = t)
    /\ (wav_left d env = None <->
        (length d mod 4 = 0)%nat
        /\ (exists wav, sf_write env = Written wav)
        /\ (exists t, openai_reply env = Ret t))
    /\ (forall content, wav_left d env = Some content ->
        let temp := fresh (dom (fs w)) in
        fs w !! temp = None
        /\ with_temp (wav_left d env) (fs w) !! temp = Some content
        /\ ((length d mod 4 <> 0)%nat /\ content = []
            \/ (exists e, sf_write env = WriteFailed e content)
            \/ sf_write env = Written content
               /\ exists e, openai_reply env = Raise e)).
Proof.
  intros He Hc.
  destruct (transcribe_with_openai_spec d env w) as (evs & H & L).
  exists (hosted_text d env), evs.
  split.
  { unfold _transcribe_audio.
    unfold try_except, bind, get_self. cbn [self fs trace].
    rewrite He, Hc.
    change (String.eqb "openai-whisper" "openai-whisper" && true) with true.
    cbn iota. now rewrite H. }
  split; [exact L|].
  split; [apply hosted_text_none|]. split; [|split].
  - unfold hosted_text. intros t.
    destruct (frombuffer d); [|discriminate].
    destruct (sf_write env); [|discriminate].
    destruct (openai_reply env) as [t0|]; [|discriminate].
    destruct (str_truthy t0); [|discriminate].
    intros [= <-]. apply strip_idempotent.
  - unfold wav_left, frombuffer.
    destruct (length d mod 4 =? 0)%nat eqn:Hlen.
    + apply Nat.eqb_eq in Hlen.
      destruct (sf_write env) as [wav|e1 partial].
      * destruct (openai_reply env) as [t|e2].
        -- split; eauto.
        -- split; [discriminate|]. intros (_ & _ & t & [=]).
      * split; [discriminate|]. intros (_ & (wav & [=]) & _).
    + apply Nat.eqb_neq in Hlen. split; [discriminate|].
      intros (Hz & _). now destruct Hlen.
  - intros content Hleft temp. subst temp.
    split; [apply fresh_absent|]. rewrite Hleft. cbn [with_temp].
    split; [apply lookup_insert_eq|].
    revert Hleft. unfold wav_left, frombuffer.
    destruct (length d mod 4 =? 0)%nat eqn:Hlen.
    + destruct (sf_write env) as [wav|e1 partial].
      * destruct (openai_reply env) as [t|e2]; [discriminate|].
        intros [= <-]. right. right. eauto.
      * intros [= <-]. right. left. eauto.
    + apply Nat.eqb_neq in Hlen. intros [= <-]. now left.
Qed.

Lemma dispatcher_on_hosted_engine_witness :
  exists r evs,
    _transcribe_audio chunk_truncated env_cloud_spaces asr_cloud
    = (Ret r,
       mkWorld (self asr_cloud)
               (with_temp (wav_left chunk_truncated env_cloud_spaces)
                          (fs asr_cloud))
               (trace asr_cloud ++ evs))
    /\ all_logs evs
    /\ (r = None <->
        (length chunk_truncated mod 4 <> 0)%nat
        \/ (exists e partial, sf_write env_cloud_spaces = WriteFailed e partial)
        \/ openai_reply env_cloud_spaces = Ret ""
        \/ (exists e, openai_reply env_cloud_spaces = Raise e))
    /\ (forall t, r = Some t -> strip t = t)
    /\ (wav_left chunk_truncated env_cloud_spaces = None <->
        (length chunk_truncated mod 4 = 0)%nat
        /\ (exists wav, sf_write env_cloud_spaces = Written wav)
        /\ (exists t, openai_reply env_cloud_spaces = Ret t))
    /\ (forall content,
        wav_left chunk_truncated env_cloud_spaces = Some content ->
        let temp := fresh (dom (fs asr_cloud)) in
        fs asr_cloud !! temp = None
        /\ with_temp (wav_left chunk_truncated env_cloud_spaces)
                     (fs asr_cloud) !! temp = Some content
        /\ ((length chunk_truncated mod 4 <> 0)%nat /\ content = []
            \/ (exists e, sf_write env_cloud_spaces = WriteFailed e content)
            \/ sf_write env_cloud_spaces = Written content
               /\ exists e, openai_reply env_cloud_spaces = Raise e)).
Proof.
  exact (dispatcher_on_hosted_engine chunk_truncated env_cloud_spaces
           asr_cloud eq_refl eq_refl).
Defined.

(** The four ways of a hosted transcription: the reply is white space
    and the file is removed; the chunk is truncated and the empty file
    stays; the disk is full and the file stays as far as it was written;
    the service cannot be reached and the WAV file stays. *)
Lemma hosted_transcription_examples :
  fst (_transcribe_audio chunk_one_half env_cloud_spaces asr_cloud)
  = Ret (Some "")
  /\ fs (snd (_transcribe_audio chunk_one_half env_cloud_spaces asr_cloud))
     = ∅
  /\ fst (_transcribe_audio chunk_truncated env_cloud_spaces asr_cloud)
     = Ret None
  /\ fs (snd (_transcribe_audio chunk_truncated env_cloud_spaces asr_cloud))
     = {[ fresh (dom (fs asr_cloud)) := [] ]}
  /\ fst (_transcribe_audio chunk_one_half env_disk_full asr_cloud)
     = Ret None
  /\ fs (snd (_transcribe_audio chunk_one_half env_disk_full asr_cloud))
     = {[ fresh (dom (fs asr_cloud)) := [x52; x49]%byte ]}
  /\ fst (_transcribe_audio chunk_one_half env_cloud_down asr_cloud)
     = Ret None
  /\ fs (snd (_transcribe_audio chunk_one_half env_cloud_down asr_cloud))
     = {[ fresh (dom (fs asr_cloud)) := wav_bytes ]}.
Proof. vm_compute. repeat split; reflexivity. Qed.

End LocalASRMore.

(** ** The synthesis chain, continued *)

Module ElevenLabsMore.
Import Py World ElevenLabs WorldFacts ElevenLabsFacts.

Ltac py_unfold :=
  unfold tts, logging, bind, ret, raise, try_except, outcome,
    get_self, set_self, emit in *.

Ltac count_events :=
  repeat (rewrite count_cons || rewrite count_app);
  repeat match goal with
         | H : all_logs ?l |- context [count ?p ?l] =>
             rewrite (count_logs p l (fun _ _ => eq_refl) H)
         end.

Lemma get_session_spec w :
  _get_session w =
  (Ret tt, mkWorld (set_session OpenSession (self w)) (fs w) (trace w)).
Proof.
  unfold _get_session. py_unfold.
  destruct w as [[k v m pm pe s u] f tr]; cbn. destruct s; reflexivity.
Qed.

(** [_synthesize_elevenlabs] in every case. *)
Lemma synthesize_elevenlabs_spec text env w :
  exists f' evs,
    _synthesize_elevenlabs text env w =
    (Ret (chain_audio true env),
     mkWorld (set_session OpenSession (self w)) f' (trace w ++ evs))
    /\ count is_http_post evs = 1%nat
    /\ count is_piper_synthesis evs
       = (if primary_delivers true env then 0%nat else 1%nat)
    /\ count is_playback evs = 0%nat
    /\ (primary_delivers true env = true -> f' = fs w /\ count is_exec evs = 0%nat).
Proof.
  unfold _synthesize_elevenlabs.
  unfold try_except at 1, bind at 1 2 3 4, get_self at 1, emit at 1.
  rewrite get_session_spec. cbn [self fs trace].
  unfold chain_audio, primary_delivers, primary_audio.
  destruct (http env) as [e|status body error_text].
  - unfold raise. cbn [is_Exception]. py_unfold. cbn [self fs trace].
    match goal with |- context [_synthesize_piper ?t ?e ?w1] =>
      destruct (synthesize_piper_spec t e w1) as (cmd & logs & H & Hl) end.
    rewrite H. cbn [self fs trace]. rewrite <- !app_assoc. cbn [app].
    eexists _, _. split; [reflexivity|]. count_events. cbn.
    repeat split; discriminate.
  - destruct (status =? 200)%Z eqn:Hs.
    + destruct body as [b|e]; py_unfold; cbn [self fs trace].
      * rewrite <- !app_assoc. cbn [app].
        eexists _, _. split; [reflexivity|]. count_events. cbn.
        repeat split; reflexivity.
      * match goal with |- context [_synthesize_piper ?t ?e ?w1] =>
          destruct (synthesize_piper_spec t e w1) as (cmd & logs & H & Hl) end.
        rewrite H. cbn [self fs trace]. rewrite <- !app_assoc. cbn [app].
        eexists _, _. split; [reflexivity|]. count_events. cbn.
        repeat split; discriminate.
    + destruct error_text as [msg|e]; py_unfold; cbn [self fs trace].
      all: match goal with |- context [_synthesize_piper ?t ?e ?w1] =>
             destruct (synthesize_piper_spec t e w1)
               as (cmd & logs & H & Hl) end.
      all: rewrite H; cbn [self fs trace]; rewrite <- !app_assoc; cbn [app].
      all: destruct body; cbn.
      all: eexists _, _; (split; [reflexivity|]); count_events; cbn.
      all: repeat split; discriminate.
Qed.


Lemma synthesize_chain_spec text env w :
  exists o' f' evs,
    synthesize text env w =
    (Ret (chain_audio (use_elevenlabs (self w)) env),
     mkWorld o' f' (trace w ++ evs))
    /\ use_elevenlabs o' = use_elevenlabs (self w)
    /\ count is_http_post evs
       = (if use_elevenlabs (self w) then 1%nat else 0%nat)
    /\ count is_piper_synthesis evs
       = (if primary_delivers (use_elevenlabs (self w)) env
          then 0%nat else 1%nat)
    /\ count is_playback evs = 0%nat.
Proof.
  unfold synthesize, bind, get_self.
  destruct (use_elevenlabs (self w)) eqn:Hu.
  - destruct (synthesize_elevenlabs_spec text env w)
      as (f' & evs & H & A & B & C & _).
    rewrite H. eexists _, _, evs. split; [reflexivity|].
    split; [now destruct (self w)|]. auto.
  - destruct (synthesize_piper_spec text env w) as (cmd & logs & H & L).
    rewrite H. eexists _, _, _. split; [reflexivity|].
    split; [exact Hu|]. count_events. cbn. auto.
Qed.

(** X9: [synthesize] follows the chain and never raises.  It returns the
    body of the HTTP response when a credential is configured, the status
    is 200 and the body can be read, and the audio of Piper in every other
    case (other status, network exception, unreadable body, no credential).
    It sends one HTTP request with a credential and none without, runs
    Piper exactly when the hosted service did not deliver, plays nothing,
    and returns None exactly when neither provider delivers. *)
Theorem synthesize_follows_the_chain text env w :
  let use := use_elevenlabs (self w) in
  exists w' evs,
    synthesize text env w = (Ret (chain_audio use env), w')
    /\ trace w' = trace w ++ evs
    /\ use_elevenlabs (self w') = use
    /\ count is_http_post evs = (if use then 1%nat else 0%nat)
    /\ count is_piper_synthesis evs
       = (if primary_delivers use env then 0%nat else 1%nat)
    /\ count is_playback evs = 0%nat
    /\ (chain_audio use env = None <->
        primary_delivers use env = false /\ piper_audio (piper env) = None).
Proof.
  intros use.
  destruct (synthesize_chain_spec text env w)
    as (o' & f' & evs & H & Hu & A & B & C).
  fold use in H, Hu, A, B. rewrite H. eexists _, evs.
  split; [reflexivity|]. cbn [self trace].
  do 5 (split; [assumption || reflexivity|]).
  unfold chain_audio, primary_delivers.
  destruct use; cbn.
  - destruct (primary_audio (http env)) as [b|]; cbn.
    + split; [discriminate | intros [[=] _]].
    + tauto.
  - tauto.
Qed.

Lemma elevenlabs_play_audio_files audio env w :
  exists logs,
    _play_audio audio env w =
    (Ret tt,
     mkWorld (self w)
       (match playback env with
        | Ret _ => fs w
        | Raise _ => <[fresh (dom (fs w)) := audio]> (fs w)
        end)
       (trace w ++ Playback audio :: logs))
    /\ all_logs logs.
Proof.
  pose proof (fresh_absent (fs w)) as Ht.
  unfold _play_audio, NamedTemporaryFile, unlink.
  py_unfold. cbn [self fs trace].
  destruct (playback env) as [[]|e]; cbn.
  - rewrite lookup_insert_eq. cbn. rewrite delete_temp by exact Ht.
    exists []. split; reflexivity.
  - eexists. rewrite <- !app_assoc. split; reflexivity.
Qed.

(** X10: [_play_audio] of the ElevenLabs connector never raises; it hands
    the audio to the playback once, removes its temporary file when the
    playback succeeds and leaves it (a file that did not exist before,
    holding the audio) when the playback raises. *)
Theorem play_audio_keeps_file_on_failure audio env w :
  exists w' logs,
    _play_audio audio env w = (Ret tt, w')
    /\ self w' = self w
    /\ trace w' = trace w ++ Playback audio :: logs
    /\ all_logs logs
    /\ fs w' = match playback env with
               | Ret _ => fs w
               | Raise _ => <[fresh (dom (fs w)) := audio]> (fs w)
               end
    /\ fs w !! fresh (dom (fs w)) = None.
Proof.
  destruct (elevenlabs_play_audio_files audio env w) as (logs & H & L).
  rewrite H. eexists _, logs. repeat split; auto. apply fresh_absent.
Qed.

(** X11: [speak] never raises and answers by what the chain returned: true
    exactly when the audio is non-empty, in which case the audio is handed
    to the playback once (and never otherwise), whatever the outcome of the
    playback. *)
Theorem speak_answers_by_the_chain text env w :
  let use := use_elevenlabs (self w) in
  let audio := chain_audio use env in
  exists w' evs,
    speak text env w = (Ret (opt_truthy bytes_truthy audio), w')
    /\ trace w' = trace w ++ evs
    /\ count is_playback evs
       = (if opt_truthy bytes_truthy audio then 1%nat else 0%nat)
    /\ count is_http_post evs = (if use then 1%nat else 0%nat)
    /\ count is_piper_synthesis evs
       = (if primary_delivers use env then 0%nat else 1%nat).
Proof.
  intros use audio.
  destruct (synthesize_chain_spec text env w)
    as (o1 & f1 & e1 & H & _ & A & B & C).
  fold use in H, A, B. fold audio in H.
  unfold speak, try_except, bind. rewrite H.
  destruct audio as [[|b audio]|]; cbn [negb bytes_truthy opt_truthy ret].
  - eexists _, e1. auto.
  - match goal with |- context [_play_audio ?a env ?w1] =>
      destruct (elevenlabs_play_audio_files a env w1)
        as (logs & H3 & L3) end.
    rewrite H3. eexists _, _. split; [reflexivity|]. cbn [trace].
    rewrite <- app_assoc. split; [reflexivity|].
    count_events. rewrite A, B, C. cbn. repeat split; lia.
  - eexists _, e1. auto.
Qed.


(** X12: the constructor probes Piper only without a credential.  With a
    non-empty key [__init__] runs no subprocess and returns; without one it
    runs the probe once, and it raises exactly when [subprocess.run]
    raises something else than a time out or a missing executable, be it
    because the subprocess could not be run (a permission error) or
    because its output does not decode.  In every case the attributes are
    set before the probe, no HTTP request is sent and no session is
    opened. *)
Theorem init_probes_only_without_key cfg api_key probe w0 :
  exists o evs,
    __init__ cfg api_key probe w0 =
    (init_result api_key probe, mkWorld o (fs w0) (trace w0 ++ evs))
    /\ use_elevenlabs o = opt_truthy str_truthy api_key
    /\ session o = NoSession
    /\ count is_exec evs
       = (if opt_truthy str_truthy api_key then 0%nat else 1%nat)
    /\ count is_http_post evs = 0%nat
    /\ (init_result api_key probe = Ret tt <->
        opt_truthy str_truthy api_key = true
        \/ match probe_raises probe with
           | Some e => is_TimeoutExpired e || is_FileNotFoundError e = true
           | None => True
           end).
Proof.
  unfold __init__, _check_piper_availability, init_result.
  py_unfold. cbn [self fs trace use_elevenlabs].
  destruct (opt_truthy str_truthy api_key); cbn.
  - eexists _, []. rewrite app_nil_r. repeat split; auto.
  - destruct probe as [e|rc written [msg|e]]; cbn;
      [destruct (is_TimeoutExpired e || is_FileNotFoundError e); cbn
      |destruct (rc =? 0)%Z; cbn
      |destruct (is_TimeoutExpired e || is_FileNotFoundError e); cbn].
    all: rewrite <- ?app_assoc; eexists _, _; split; [reflexivity|].
    all: do 4 (split; [reflexivity|]).
    all: split; [intros H; try discriminate; auto
                |intros [H|H]; try discriminate; auto].
Qed.

(** The constructor on a probe whose output does not decode, without a
    key: the decoding error leaves [__init__]. *)
Lemma undecodable_probe_leaves_init :
  fst (__init__ (mkConfig None None None None) None probe_undecodable
         connector0) = Raise UnicodeDecodeError.
Proof. reflexivity. Qed.

Lemma aexit_spec w :
  __aexit__ w =
  (Ret tt,
   mkWorld (match session (self w) with
            | OpenSession => set_session ClosedSession (self w)
            | _ => self w
            end) (fs w) (trace w)).
Proof.
  unfold __aexit__. py_unfold.
  destruct w as [[k v m pm pe s u] f tr]; cbn. destruct s; reflexivity.
Qed.

(** X13: the connector can be used again after [__aexit__].  After the
    exit no session is open; a later [synthesize] with a credential opens
    one again and returns what the chain returns; a second exit closes
    it. *)
Theorem connector_usable_after_exit text env w :
  use_elevenlabs (self w) = true ->
  let w1 := snd (__aexit__ w) in
  let w2 := snd (synthesize text env w1) in
  session (self w1) <> OpenSession
  /\ fst (synthesize text env w1) = Ret (chain_audio true env)
  /\ session (self w2) = OpenSession
  /\ session (self (snd (__aexit__ w2))) = ClosedSession.
Proof.
  intros Hu w1 w2. subst w2 w1. rewrite aexit_spec. cbn [snd].
  split; [destruct (self w) as [k v m pm pe s u]; cbn; now destruct s|].
  match goal with |- context [synthesize text env ?w1] =>
    assert (Hu1 : use_elevenlabs (self w1) = true)
      by (cbn [self]; destruct (self w) as [k v m pm pe s u];
          cbn in *; now destruct s);
    set (wx := w1) in * end.
  unfold synthesize, bind, get_self. rewrite Hu1.
  destruct (synthesize_elevenlabs_spec text env wx)
    as (f' & evs & H & _).
  rewrite H. cbn [fst snd]. split; [reflexivity|].
  rewrite aexit_spec. cbn. auto.
Qed.

(** X14: [speak] leaves no temporary file when every step completes: if
    the playback succeeds and either the hosted service delivers or the
    Piper subprocess ends on one of the outcomes of [cleans_up], the file
    system after [speak] is the file system before. *)
Theorem speak_leaves_no_file text env w :
  playback env = Ret tt ->
  primary_delivers (use_elevenlabs (self w)) env = true
  \/ cleans_up (piper env) = true ->
  fs (snd (speak text env w)) = fs w.
Proof.
  intros Hp Hc. unfold speak, try_except, bind at 1.
  assert (Hs : exists r w1, synthesize text env w = (Ret r, w1)
                            /\ fs w1 = fs w).
  { unfold synthesize, bind, get_self.
    destruct (use_elevenlabs (self w)) eqn:Hu.
    - unfold _synthesize_elevenlabs.
      unfold try_except at 1, bind at 1 2 3 4, get_self at 1, emit at 1.
      rewrite get_session_spec. cbn [self fs trace].
      unfold primary_delivers, primary_audio in Hc.
      destruct (http env) as [e|status body error_text].
      + destruct Hc as [Hc|Hc]; [discriminate|].
        unfold raise. cbn [is_Exception]. py_unfold. cbn [self fs trace].
        match goal with |- context [_synthesize_piper ?t ?e ?w1] =>
          destruct (synthesize_piper_spec t e w1) as (cmd & logs & H & _) end.
        rewrite H, Hc. eauto.
      + destruct (status =? 200)%Z.
        * destruct body as [b|e]; py_unfold; cbn [self fs trace]; [eauto|].
          destruct Hc as [Hc|Hc]; [discriminate|].
          match goal with |- context [_synthesize_piper ?t ?e ?w1] =>
            destruct (synthesize_piper_spec t e w1)
              as (cmd & logs & H & _) end.
          rewrite H, Hc. eauto.
        * destruct Hc as [Hc|Hc]; [now destruct body|].
          destruct error_text as [msg|e]; py_unfold; cbn [self fs trace].
          all: match goal with |- context [_synthesize_piper ?t ?e ?w1] =>
                 destruct (synthesize_piper_spec t e w1)
                   as (cmd & logs & H & _) end.
          all: rewrite H, Hc; eauto.
    - destruct Hc as [Hc|Hc]; [discriminate|].
      destruct (synthesize_piper_spec text env w) as (cmd & logs & H & _).
      rewrite H, Hc. eauto. }
  destruct Hs as (r & w1 & Hs & Hf). rewrite Hs.
  destruct r as [[|b audio]|]; cbn [negb bytes_truthy ret snd]; try exact Hf.
  unfold bind.
  destruct (elevenlabs_play_audio_files (b :: audio) env w1) as (logs & H3 & _).
  rewrite H3, Hp. cbn. exact Hf.
Qed.


Lemma speak_leaves_no_file_witness :
  fs (snd (speak "hi" env_200 with_key)) = fs with_key
  /\ fs (snd (speak "hi" env_offline without_key)) = fs without_key.
Proof.
  split.
  - apply (speak_leaves_no_file "hi" env_200 with_key);
      [reflexivity | left; reflexivity].
  - apply (speak_leaves_no_file "hi" env_offline without_key);
      [reflexivity | right; reflexivity].
Defined.

Lemma connector_usable_after_exit_witness :
  let w1 := snd (__aexit__ with_key) in
  let w2 := snd (synthesize "hi" env_200 w1) in
  session (self w1) <> OpenSession
  /\ fst (synthesize "hi" env_200 w1) = Ret (chain_audio true env_200)
  /\ session (self w2) = OpenSession
  /\ session (self (snd (__aexit__ w2))) = ClosedSession.
Proof.
  exact (connector_usable_after_exit "hi" env_200 with_key eq_refl).
Defined.

End ElevenLabsMore.

(** ** The offline connector, continued *)

Module PiperMore.
Import Py World Piper WorldFacts PiperFacts.

Ltac py_unfold :=
  unfold tts, logging, bind, ret, raise, try_except, outcome,
    get_self, set_self, emit in *.

Lemma first_to_play_head env q l :
  plays (player_run env q) = true -> first_to_play env (q :: l) 0.
Proof.
  intros H. split; [exists q; auto|]. intros j r Hj. lia.
Qed.

Lemma first_to_play_tail env q l i :
  skipped (player_run env q) = true ->
  first_to_play env l i -> first_to_play env (q :: l) (S i).
Proof.
  intros Hs [(player & Hl & Hp) Hb]. split; [exists player; auto|].
  intros [|j] r Hj Hr; cbn in Hr.
  - now injection Hr as <-.
  - apply (Hb j); [lia | exact Hr].
Qed.

Lemma first_to_play_inv env q l i :
  first_to_play env (q :: l) i ->
  (i = 0%nat /\ plays (player_run env q) = true)
  \/ (exists k, i = S k /\ skipped (player_run env q) = true
               /\ first_to_play env l k).
Proof.
  intros [(player & Hl & Hp) Hb]. destruct i as [|k].
  - left. cbn in Hl. injection Hl as <-. auto.
  - right. exists k. split; [reflexivity|]. split.
    + apply (Hb 0%nat); [lia | reflexivity].
    + split; [exists player; auto|].
      intros j r Hj Hr. apply (Hb (S j)); [lia | exact Hr].
Qed.

Lemma plays_not_skipped r : plays r = true -> skipped r = false.
Proof. destruct r as [rc|e]; cbn; [intros ->; reflexivity | discriminate]. Qed.


Ltac count_events :=
  repeat (rewrite count_cons || rewrite count_app);
  repeat match goal with
         | H : all_logs ?l |- context [count ?p ?l] =>
             rewrite (count_logs p l (fun _ _ => eq_refl) H)
         end.

Lemma try_players_first l p env : forall w,
  exists r evs,
    try_players l p env w = (r, mkWorld (self w) (fs w) (trace w ++ evs))
    /\ (r = Ret true <->
        exists i, first_to_play env l i
                  /\ count is_player_run evs = S i)
    /\ ((exists i, first_to_play env l i) -> r = Ret true)
    /\ (min 1 (length l) <= count is_player_run evs <= length l)%nat
    /\ count is_piper_synthesis evs = 0%nat.
Proof.
  induction l as [|q l IH]; intros w; simpl.
  - py_unfold. cbn. eexists _, _. split; [reflexivity|]. count_events. cbn.
    split; [|split; [|split; [lia | reflexivity]]].
    + split; [discriminate|]. intros (i & [(pl & H & _) _] & _). discriminate.
    + intros (i & [(pl & H & _) _]). discriminate.
  - py_unfold. cbn [self fs trace].
    destruct (player_run env q) as [rc|e] eqn:Hq; cbn.
    + destruct (rc =? 0)%Z eqn:Hrc; cbn.
      * eexists _, _. rewrite <- app_assoc. split; [reflexivity|].
        count_events. cbn.
        split; [|split; [|split; [lia | reflexivity]]]; [|reflexivity].
        split; [|reflexivity]. intros _. exists 0%nat. split; [|reflexivity].
        apply first_to_play_head. now rewrite Hq.
      * match goal with |- context [try_players l p env ?w1] =>
          destruct (IH w1) as (r & evs & H & Hiff & Hex & Hle & Hz) end.
        rewrite H. cbn [self fs trace]. rewrite <- app_assoc.
        eexists _, _. split; [reflexivity|].
        change ([?a] ++ evs) with (a :: evs).
        rewrite !count_cons. cbn [is_player_run is_piper_synthesis].
        split; [|split; [|split; [lia | exact Hz]]].
        -- rewrite Hiff. split.
           ++ intros (i & Hf & Hc). exists (S i). split; [|lia].
              apply first_to_play_tail; [now rewrite Hq; cbn; rewrite Hrc|exact Hf].
           ++ intros (i & Hf & Hc).
              destruct (first_to_play_inv _ _ _ _ Hf) as [[_ Hp]|(k & -> & _ & Hk)].
              ** rewrite Hq in Hp. cbn in Hp. congruence.
              ** exists k. split; [exact Hk | lia].
        -- intros (i & Hf). apply Hex.
           destruct (first_to_play_inv _ _ _ _ Hf) as [[_ Hp]|(k & -> & _ & Hk)].
           ** rewrite Hq in Hp. cbn in Hp. congruence.
           ** eauto.
    + destruct (is_FileNotFoundError e || is_TimeoutExpired e) eqn:He; cbn.
      * match goal with |- context [try_players l p env ?w1] =>
          destruct (IH w1) as (r & evs & H & Hiff & Hex & Hle & Hz) end.
        rewrite H. cbn [self fs trace]. rewrite <- app_assoc.
        eexists _, _. split; [reflexivity|].
        change ([?a] ++ evs) with (a :: evs).
        rewrite !count_cons. cbn [is_player_run is_piper_synthesis].
        split; [|split; [|split; [lia | exact Hz]]].
        -- rewrite Hiff. split.
           ++ intros (i & Hf & Hc). exists (S i). split; [|lia].
              apply first_to_play_tail; [now rewrite Hq|exact Hf].
           ++ intros (i & Hf & Hc).
              destruct (first_to_play_inv _ _ _ _ Hf) as [[_ Hp]|(k & -> & _ & Hk)].
              ** rewrite Hq in Hp. discriminate.
              ** exists k. split; [exact Hk | lia].
        -- intros (i & Hf). apply Hex.
           destruct (first_to_play_inv _ _ _ _ Hf) as [[_ Hp]|(k & -> & _ & Hk)].
           ** rewrite Hq in Hp. discriminate.
           ** eauto.
      * eexists _, _. split; [reflexivity|]. count_events. cbn.
        assert (Hno : forall i, ~ first_to_play env (q :: l) i).
        { intros i Hf.
          destruct (first_to_play_inv _ _ _ _ Hf) as [[_ Hp]|(k & _ & Hs & _)];
            rewrite Hq in *; cbn in *; congruence. }
        split; [|split; [|split; [lia | reflexivity]]].
        -- split; [discriminate|]. intros (i & Hf & _). now apply Hno in Hf.
        -- intros (i & Hf). now apply Hno in Hf.
Qed.

(** X16: [_play_audio] of the Piper connector never raises and answers
    true exactly when some player of the list aplay, paplay, play, ffplay
    exits with 0 and all the players before it were skipped (missing, timed
    out, or exited with another code); the players after the first one that
    works are not run.  Between one and four players are run, and the file
    system is not touched. *)
Theorem play_audio_first_working_player p env w :
  exists b evs,
    _play_audio p env w = (Ret b, mkWorld (self w) (fs w) (trace w ++ evs))
    /\ (b = true <-> exists i, first_to_play env players i)
    /\ (b = true ->
        exists i, first_to_play env players i
                  /\ count is_player_run evs = S i)
    /\ (1 <= count is_player_run evs <= 4)%nat
    /\ count is_piper_synthesis evs = 0%nat.
Proof.
  unfold _play_audio, try_except. fold players.
  destruct (try_players_first players p env w)
    as (r & evs & H & Hiff & Hex & Hle & Hz).
  rewrite H. destruct r as [b|e].
  - eexists _, _. split; [reflexivity|]. split; [|split; [|split]]; auto.
    + split.
      * intros ->. destruct (proj1 Hiff eq_refl) as (i & Hf & _). eauto.
      * intros Hf. apply Hex in Hf. congruence.
    + intros ->. now apply Hiff.
  - py_unfold. cbn. rewrite <- app_assoc. eexists _, _.
    split; [reflexivity|]. count_events. cbn.
    split; [|split; [|split]].
    + split; [discriminate|]. intros Hf. apply Hex in Hf. discriminate.
    + discriminate.
    + cbn in Hle. lia.
    + rewrite Hz. reflexivity.
Qed.


Lemma piper_play_audio_runs p env w :
  exists b evs,
    _play_audio p env w = (Ret b, mkWorld (self w) (fs w) (trace w ++ evs))
    /\ (1 <= count is_player_run evs <= 4)%nat
    /\ count is_piper_synthesis evs = 0%nat.
Proof.
  unfold _play_audio, try_except. fold players.
  destruct (try_players_first players p env w)
    as (r & evs & H & _ & _ & Hle & Hz).
  rewrite H. cbn in Hle. destruct r as [b|e].
  - eexists _, _. split; [reflexivity|]. split; [lia | exact Hz].
  - py_unfold. cbn. rewrite <- app_assoc. eexists _, _.
    split; [reflexivity|]. count_events. cbn. rewrite Hz. split; lia.
Qed.

(** *** The probe *)

(** X15: the availability probe of the Piper connector.  It answers true
    exactly when [piper --version] exits with 0, or raises one of the
    caught exceptions and [python -m piper --version] exits with 0.  A
    return code other than 0 of the first command answers false without
    trying the second; an exception that is not caught is raised to the
    caller after one subprocess. *)
Theorem probe_falls_back_only_on_exception probe1 probe2 w :
  exists r evs,
    _check_piper_availability probe1 probe2 w =
    (r, mkWorld (self w) (fs w) (trace w ++ evs))
    /\ (r = Ret true <->
        probe1 = Ret 0%Z
        \/ (exists e, probe1 = Raise e /\ probe_failure e = true
                      /\ probe2 = Ret 0%Z))
    /\ (forall rc, probe1 = Ret rc -> r = Ret (rc =? 0)%Z
                                      /\ count is_exec evs = 1%nat)
    /\ (forall e, probe1 = Raise e -> probe_failure e = false ->
                  r = Raise e /\ count is_exec evs = 1%nat)
    /\ (forall e, probe1 = Raise e -> probe_failure e = true ->
                  count is_exec evs = 2%nat).
Proof.
  unfold _check_piper_availability. py_unfold. cbn [self fs trace].
  destruct probe1 as [rc|e]; cbn.
  - eexists _, _. split; [reflexivity|]. count_events. cbn.
    split; [|split; [|split]].
    + split.
      * intros [= H]. left. apply Z.eqb_eq in H. now subst.
      * intros [[= ->]|(e & [=] & _)]. reflexivity.
    + intros rc' [= <-]. auto.
    + intros e [=].
    + intros e [=].
  - destruct (probe_failure e) eqn:He; cbn.
    + assert (Hr : forall r evs,
        count is_exec evs = 2%nat ->
        (r = Ret true <-> probe2 = Ret 0%Z) ->
        (r = Ret true <->
         @Raise Z e = Ret 0%Z
         \/ (exists e0, @Raise Z e = Raise e0 /\ probe_failure e0 = true
                        /\ probe2 = Ret 0%Z))
        /\ (forall rc, @Raise Z e = Ret rc ->
             r = Ret (rc =? 0)%Z /\ count is_exec evs = 1%nat)
        /\ (forall e0, @Raise Z e = Raise e0 -> probe_failure e0 = false ->
             r = Raise e0 /\ count is_exec evs = 1%nat)
        /\ (forall e0, @Raise Z e = Raise e0 -> probe_failure e0 = true ->
             count is_exec evs = 2%nat)).
      { intros r evs Hc Hiff. split; [|split; [|split]].
        - rewrite Hiff. split.
          + intros H2. right. exists e. auto.
          + intros [[=]|(e0 & _ & _ & H2)]. exact H2.
        - intros rc [=].
        - intros e0 [= <-]. congruence.
        - intros e0 _ _. exact Hc. }
      destruct probe2 as [rc|e2]; cbn.
      * rewrite <- app_assoc. eexists _, _. split; [reflexivity|].
        apply Hr; [count_events; reflexivity|].
        split.
        -- intros [= H]. apply Z.eqb_eq in H. now subst.
        -- intros [= ->]. reflexivity.
      * destruct (probe_failure e2); cbn; rewrite <- app_assoc;
          eexists _, _; (split; [reflexivity|]).
        all: apply Hr; [count_events; reflexivity|].
        all: split; discriminate.
    + eexists _, _. split; [reflexivity|]. count_events. cbn.
      split; [|split; [|split]].
      * split; [discriminate|].
        intros [[=]|(e' & [= <-] & Hf & _)]. congruence.
      * intros rc [=].
      * intros e' [= <-]. auto.
      * intros e' [= <-]. congruence.
Qed.

(** *** [connect] when Piper is available *)

Lemma synthesize_with_piper_events text env w :
  exists f' cmd logs,
    _synthesize_with_piper text env w =
    (Ret (if succeeded (synthesis env)
          then Some (fresh (dom (fs w))) else None),
     mkWorld (self w) f' (trace w ++ Exec cmd (Some text) :: logs))
    /\ all_logs logs.
Proof.
  pose proof (fresh_absent (fs w)) as Hp.
  unfold _synthesize_with_piper, NamedTemporaryFile, write_file,
    exists_, unlink.
  py_unfold. cbn [self fs trace].
  destruct (synthesis env) as [e|rc written [msg|e]]; cbn [succeeded].
  - destruct (is_TimeoutExpired e); cbn; rewrite <- app_assoc;
      eexists _, _, _; split; reflexivity.
  - destruct written as [b|], (rc =? 0)%Z; cbn.
    all: repeat (lookup_step; cbn).
    all: rewrite <- ?app_assoc; eexists _, _, _; split; reflexivity.
  - destruct written as [b|], (is_TimeoutExpired e); cbn.
    all: rewrite <- ?app_assoc; eexists _, _, _; split; reflexivity.
Qed.

Lemma connect_events sentence env w :
  piper_available (self w) = true ->
  exists w' evs,
    connect sentence env w = (Ret tt, w')
    /\ self w' = self w
    /\ trace w' = trace w ++ evs
    /\ count is_piper_synthesis evs = 1%nat
    /\ (if succeeded (synthesis env)
        then 1 <= count is_player_run evs <= 4
        else count is_player_run evs = 0)%nat.
Proof.
  intros Hav. unfold connect.
  unfold bind at 1 2, logging at 1, emit at 1, get_self at 1.
  cbn [self fs trace]. rewrite Hav. cbn [negb].
  unfold bind at 1.
  match goal with |- context [_synthesize_with_piper sentence env ?w1] =>
    destruct (synthesize_with_piper_events sentence env w1)
      as (f' & cmd & logs & H & L) end.
  rewrite H. clear H. cbn [self fs trace].
  destruct (succeeded (synthesis env)).
  - unfold bind at 1.
    match goal with |- context [_play_audio ?p env ?w1] =>
      destruct (piper_play_audio_runs p env w1)
        as (b & evs2 & H & Hle & Hz) end.
    rewrite H. clear H. cbn [self fs trace].
    unfold bind at 1, try_except, unlink. cbn [self fs trace].
    assert (Hend : forall (w2 : world PiperTTSConnector),
      exists logs2,
        (if negb b
         then logging WARNING
                ("Audio synthesis succeeded but playback failed: "
                 +:+ sentence)
         else ret tt) w2
        = (Ret tt, mkWorld (self w2) (fs w2) (trace w2 ++ logs2))
        /\ all_logs logs2).
    { intros w2. destruct b; py_unfold; cbn.
      - exists []. rewrite app_nil_r. now destruct w2.
      - eexists. split; reflexivity. }
    destruct (f' !! fresh (dom (fs w))) eqn:Hl; cbn [is_OSError ret];
      match goal with |- context [(if negb b then _ else _) ?w2] =>
        destruct (Hend w2) as (logs2 & H2 & L2) end;
      rewrite H2; cbn [self fs trace]; eexists _, _;
      (split; [reflexivity|]); cbn [self trace]; (split; [reflexivity|]);
      rewrite <- !app_assoc; cbn [app]; (split; [reflexivity|]);
      count_events; rewrite Hz; cbn; split; lia.
  - py_unfold. cbn [self fs trace]. eexists _, _.
    split; [reflexivity|]. cbn [self trace]. split; [reflexivity|].
    rewrite <- !app_assoc. cbn [app]. split; [reflexivity|].
    count_events. cbn. split; reflexivity.
Qed.

(** X17: [connect] with Piper available never raises, keeps the
    connector, runs the synthesis once, and runs players (between one and
    four) only when the synthesis exited with 0; the temporary audio file
    is removed when the subprocess ran to its end, also when no player
    works, and stays otherwise. *)
Theorem connect_plays_only_after_synthesis sentence env w :
  piper_available (self w) = true ->
  exists w' evs,
    connect sentence env w = (Ret tt, w')
    /\ self w' = self w
    /\ trace w' = trace w ++ evs
    /\ count is_piper_synthesis evs = 1%nat
    /\ (if succeeded (synthesis env)
        then 1 <= count is_player_run evs <= 4
        else count is_player_run evs = 0)%nat
    /\ fs w' = (if completed (synthesis env) then fs w
                else <[fresh (dom (fs w)) := written_content (synthesis env)]>
                       (fs w)).
Proof.
  intros Hav.
  pose proof (connect_file_system sentence env w Hav) as Hfs.
  destruct (connect_events sentence env w Hav) as (w' & evs & H & S & T & A & B).
  rewrite H in Hfs. cbn [snd] in Hfs.
  exists w', evs. auto 10.
Qed.


Lemma probe_falls_back_only_on_exception_witness :
  fst (_check_piper_availability (Raise FileNotFoundError) (Ret 0%Z) piper0)
  = Ret true
  /\ fst (_check_piper_availability (Ret 1%Z) (Ret 0%Z) piper0) = Ret false
  /\ fst (_check_piper_availability (Raise PermissionError) (Ret 0%Z) piper0)
     = Raise PermissionError.
Proof.
  split; [|split].
  - destruct (probe_falls_back_only_on_exception
                (Raise FileNotFoundError) (Ret 0%Z) piper0)
      as (r & evs & H & Hiff & _).
    rewrite H. apply Hiff. right. exists FileNotFoundError. auto.
  - destruct (probe_falls_back_only_on_exception (Ret 1%Z) (Ret 0%Z) piper0)
      as (r & evs & H & _ & Hrc & _).
    rewrite H. exact (proj1 (Hrc 1%Z eq_refl)).
  - destruct (probe_falls_back_only_on_exception
                (Raise PermissionError) (Ret 0%Z) piper0)
      as (r & evs & H & _ & _ & He & _).
    rewrite H. exact (proj1 (He PermissionError eq_refl eq_refl)).
Defined.

Lemma play_audio_first_working_player_witness :
  fst (_play_audio 0%nat env_only_play piper_ready) = Ret true.
Proof.
  destruct (play_audio_first_working_player 0%nat env_only_play piper_ready)
    as (b & evs & H & Hiff & _).
  rewrite H. cbn [fst]. f_equal. apply Hiff. exists 2%nat. split.
  - exists "play". split; reflexivity.
  - intros j q Hj Hq. destruct j as [|[|j]]; [| |lia].
    + injection Hq as <-. reflexivity.
    + injection Hq as <-. reflexivity.
Defined.

Lemma connect_plays_only_after_synthesis_witness :
  exists w' evs,
    connect "hi" env_no_player piper_ready = (Ret tt, w')
    /\ self w' = self piper_ready
    /\ trace w' = trace piper_ready ++ evs
    /\ count is_piper_synthesis evs = 1%nat
    /\ (1 <= count is_player_run evs <= 4)%nat
    /\ fs w' = fs piper_ready.
Proof.
  exact (connect_plays_only_after_synthesis "hi" env_no_player piper_ready
           eq_refl).
Defined.

End PiperMore.
